(** * MechSolver formula layer: a shallow embedding and its verified properties

    The Python formula modules (kinematics, stress analysis, fluid mechanics,
    thermodynamics, machine design, materials) are embedded as Rocq functions.

    Numbers.  A Python [float] / NumPy [float64] is modelled by [pyfloat]:
    a real number, an infinity or NaN.  The operators [+ - * /] are exact on
    the reals (rounding, the silent overflow to an infinity, underflow and
    the sign of zero are abstracted away) and follow IEEE 754 on the special
    values.  Where CPython raises the model raises: [ZeroDivisionError] for
    [/] on Python floats, [ValueError] from [math], and [OverflowError] for a
    power [**] of a Python float that leaves the binary64 range.  Where NumPy
    returns NaN or an infinity the model does so too.

    Statements about returned values are therefore statements up to
    rounding.  Statements about outcomes (raise or return, NaN or number,
    which branch, which integer) are made only where rounding cannot change
    the outcome: they are stated for the calls that return, or they carry
    bounds on the magnitude of their inputs (such as [|x| <= 1e150] under a
    square) that keep the binary64 run away from overflow and underflow.
    The two parts whose outcome does depend on rounding, [solve_position] of
    [four_bar_mechanism] and the drag loop of [projectile_motion], are written
    once over an abstract arithmetic and read both over [pyfloat] and over
    IEEE binary64 ([PrimFloat]). *)

From Stdlib Require Import Reals Lra Lia ZArith List String Bool Psatz.
From Stdlib Require Floats.
Import ListNotations.
Local Open Scope string_scope.
Local Open Scope list_scope.
Local Open Scope R_scope.

(* ================================================================== *)
(** ** The Python runtime model *)
(* ================================================================== *)

Module Py.

(** Exceptions the formula layer can raise. *)
Inductive exn : Type :=
| ValueError (msg : string)
| ZeroDivisionError
| OverflowError
| KeyError (key : string)
| TypeError.

(** Outcome of a call: a value, a raised exception, or [Complex]: a
    fractional power of a negative base made CPython switch to complex
    numbers, which the model does not follow any further. *)
Inductive result (A : Type) : Type :=
| Ok (a : A)
| Raise (e : exn)
| Complex.
Arguments Ok {A} a.
Arguments Raise {A} e.
Arguments Complex {A}.

Definition bind {A B : Type} (m : result A) (k : A -> result B) : result B :=
  match m with
  | Ok a => k a
  | Raise e => Raise e
  | Complex => Complex
  end.

Definition fails {A : Type} (m : result A) : Prop := exists e, m = Raise e.
Definition returns {A : Type} (m : result A) : Prop := exists a, m = Ok a.

(** Floats. *)
Inductive pyfloat : Type :=
| NaN
| Inf (negative : bool)
| Fin (r : R).

Definition Rltb (a b : R) : bool := if Rlt_dec a b then true else false.
Definition Rleb (a b : R) : bool := if Rle_dec a b then true else false.
Definition Reqb (a b : R) : bool := if Req_EM_T a b then true else false.

Definition is_zero (x : pyfloat) : bool :=
  match x with Fin r => Reqb r 0 | _ => false end.

Definition fneg (x : pyfloat) : pyfloat :=
  match x with
  | NaN => NaN
  | Inf s => Inf (negb s)
  | Fin r => Fin (- r)
  end.

Definition fadd (x y : pyfloat) : pyfloat :=
  match x, y with
  | NaN, _ | _, NaN => NaN
  | Inf s, Inf s' => if Bool.eqb s s' then Inf s else NaN
  | Inf s, Fin _ => Inf s
  | Fin _, Inf s => Inf s
  | Fin a, Fin b => Fin (a + b)
  end.

Definition fsub (x y : pyfloat) : pyfloat := fadd x (fneg y).

Definition fmul (x y : pyfloat) : pyfloat :=
  match x, y with
  | NaN, _ | _, NaN => NaN
  | Inf s, Inf s' => Inf (xorb s s')
  | Inf s, Fin r | Fin r, Inf s =>
      if Reqb r 0 then NaN else Inf (xorb s (Rltb r 0))
  | Fin a, Fin b => Fin (a * b)
  end.

(** IEEE division, as NumPy performs it: no exception, a zero divisor gives
    an infinity or NaN. *)
Definition fdiv (x y : pyfloat) : pyfloat :=
  match x, y with
  | NaN, _ | _, NaN => NaN
  | Inf _, Inf _ => NaN
  | Inf s, Fin r => Inf (xorb s (Rltb r 0))
  | Fin _, Inf _ => Fin 0
  | Fin a, Fin b =>
      if Reqb b 0
      then (if Reqb a 0 then NaN else Inf (Rltb a 0))
      else Fin (a / b)
  end.

Definition np_div (x y : pyfloat) : pyfloat := fdiv x y.

(** [x / y] on Python floats: a zero divisor raises. *)
Definition py_div (x y : pyfloat) : result pyfloat :=
  if is_zero y then Raise ZeroDivisionError else Ok (fdiv x y).

(** Comparisons; every comparison with NaN is false. *)
Definition flt (x y : pyfloat) : bool :=
  match x, y with
  | NaN, _ | _, NaN => false
  | Inf true, Inf true => false
  | Inf true, _ => true
  | Inf false, _ => false
  | Fin _, Inf s => negb s
  | Fin a, Fin b => Rltb a b
  end.

Definition fle (x y : pyfloat) : bool :=
  match x, y with
  | NaN, _ | _, NaN => false
  | Inf true, _ => true
  | Inf false, Inf false => true
  | Inf false, _ => false
  | Fin _, Inf s => negb s
  | Fin a, Fin b => Rleb a b
  end.

Definition fge (x y : pyfloat) : bool := fle y x.

Definition py_min (a b : pyfloat) : pyfloat := if flt b a then b else a.

(** [x ** n] on a NumPy scalar, for a literal natural exponent: no
    exception. *)
Fixpoint fpow (x : pyfloat) (n : nat) : pyfloat :=
  match n with
  | O => Fin 1
  | S O => x
  | S k => fmul (fpow x k) x
  end.

(** The magnitude from which a real number rounds to an infinity in IEEE
    binary64: the largest double, [2^1024 - 2^971], plus half a unit in its
    last place. *)
Definition overflow_threshold : R := 2 ^ 1024 - 2 ^ 970.

Definition overflows (r : R) : bool := Rleb overflow_threshold (Rabs r).

(** The real number [r] rounds to a finite double. *)
Definition in_range (r : R) : Prop := Rabs r < overflow_threshold.

(** The result of a power as CPython delivers it: a value that left the
    binary64 range raises [OverflowError]. *)
Definition checked (p : R) : result pyfloat :=
  if overflows p then Raise OverflowError else Ok (Fin p).

(** [x ** n] on a Python float, for an exponent [n >= 1] that is an integer.
    Unlike the operators [+ - * /], and unlike NumPy, CPython checks the
    result of a float power: a finite base whose power overflows raises
    [OverflowError]; an underflow gives zero without an error. *)
Definition float_pow (x : pyfloat) (n : nat) : result pyfloat :=
  match x, fpow x n with
  | Fin _, Fin p => checked p
  | _, y => Ok y
  end.

(** [a / b] on two Python integers: a float, [ZeroDivisionError] for a zero
    divisor, [OverflowError] when the quotient is too large for a float. *)
Definition int_truediv (a b : Z) : result pyfloat :=
  if Z.eqb b 0 then Raise ZeroDivisionError else checked (IZR a / IZR b).

(** [np.sqrt]: NaN below zero, no exception. *)
Definition np_sqrt (x : pyfloat) : pyfloat :=
  match x with
  | NaN => NaN
  | Inf s => if s then NaN else Inf false
  | Fin r => if Rltb r 0 then NaN else Fin (sqrt r)
  end.

(** [math.sqrt]: raises below zero. *)
Definition math_sqrt (x : pyfloat) : result pyfloat :=
  match x with
  | NaN => Ok NaN
  | Inf s => if s then Raise (ValueError "math domain error") else Ok (Inf false)
  | Fin r => if Rltb r 0 then Raise (ValueError "math domain error")
             else Ok (Fin (sqrt r))
  end.

Definition is_integer (y : R) : bool := Reqb (IZR (Int_part y)) y.

(** [x ** y] on Python floats for a finite non-zero exponent [y] (every
    call site uses a float such as [2/3], [3/2], [3.0] or [1/b]).  A power
    that overflows raises [OverflowError]; a negative base with an exponent
    that is not an integer makes CPython go on with a complex number, the
    outcome [Complex]. *)
Definition py_pow (x : pyfloat) (y : R) : result pyfloat :=
  match x with
  | NaN => Ok NaN
  | Inf s =>
      if Rltb 0 y
      then Ok (if s && is_integer y && negb (is_integer (y / 2))
               then Inf true else Inf false)
      else Ok (Fin 0)
  | Fin r =>
      if Rltb 0 r then checked (Rpower r y)
      else if Reqb r 0
           then (if Rltb y 0 then Raise ZeroDivisionError else Ok (Fin 0))
           else if is_integer y then checked (powerRZ r (Int_part y))
                else Complex
  end.

(** [math.pow(x, y)], same exponents: never complex, raises instead. *)
Definition math_pow (x : pyfloat) (y : R) : result pyfloat :=
  match x with
  | Fin r =>
      if Rltb 0 r then checked (Rpower r y)
      else if Reqb r 0
           then (if Rltb y 0 then Raise (ValueError "math domain error")
                 else Ok (Fin 0))
           else if is_integer y then checked (powerRZ r (Int_part y))
                else Raise (ValueError "math domain error")
  | _ => py_pow x y
  end.

(** Trigonometry of NumPy. *)
Definition np_cos (x : pyfloat) : pyfloat :=
  match x with Fin r => Fin (cos r) | _ => NaN end.
Definition np_sin (x : pyfloat) : pyfloat :=
  match x with Fin r => Fin (sin r) | _ => NaN end.
Definition np_tan (x : pyfloat) : pyfloat :=
  match x with Fin r => Fin (tan r) | _ => NaN end.

Definition np_arctan (x : pyfloat) : pyfloat :=
  match x with
  | NaN => NaN
  | Inf s => Fin (if s then - (PI / 2) else PI / 2)
  | Fin r => Fin (atan r)
  end.

(** Two-argument arctangent on the reals: the angle of the point [(x, y)]. *)
Definition atan2 (y x : R) : R :=
  if Rltb 0 x then atan (y / x)
  else if Rltb x 0
       then (if Rleb 0 y then atan (y / x) + PI else atan (y / x) - PI)
       else if Rltb 0 y then PI / 2
            else if Rltb y 0 then - (PI / 2) else 0.

Definition np_arctan2 (y x : pyfloat) : pyfloat :=
  match y, x with
  | NaN, _ | _, NaN => NaN
  | Fin a, Fin b => Fin (atan2 a b)
  | Fin a, Inf false => Fin 0
  | Fin a, Inf true => Fin (if Rltb a 0 then - PI else PI)
  | Inf s, Fin _ => Fin (if s then - (PI / 2) else PI / 2)
  | Inf s, Inf false => Fin (if s then - (PI / 4) else PI / 4)
  | Inf s, Inf true => Fin (if s then - (3 * PI / 4) else 3 * PI / 4)
  end.

Definition np_pi : pyfloat := Fin PI.
Definition np_radians (x : pyfloat) : pyfloat := fmul x (Fin (PI / 180)).
Definition np_degrees (x : pyfloat) : pyfloat := fmul x (Fin (180 / PI)).

(** Values stored in a result set, and insertion-ordered dictionaries. *)
Inductive value : Type :=
| VFloat (x : pyfloat)
| VInt (n : Z)
| VStr (s : string)
| VBool (b : bool)
| VList (l : list pyfloat).

Definition dict : Type := list (string * value).

Fixpoint lookup (k : string) (d : dict) : option value :=
  match d with
  | [] => None
  | (k', v) :: d' => if String.eqb k k' then Some v else lookup k d'
  end.

(** [d[k] = v]: overwrite in place, or append a new key. *)
Fixpoint dict_set (k : string) (v : value) (d : dict) : dict :=
  match d with
  | [] => [(k, v)]
  | (k', v') :: d' =>
      if String.eqb k k' then (k, v) :: d' else (k', v') :: dict_set k v d'
  end.

(** [d[k]]: a missing key raises. *)
Definition getitem (d : dict) (k : string) : result value :=
  match lookup k d with
  | Some v => Ok v
  | None => Raise (KeyError k)
  end.

(** A number read back from a dictionary and used in arithmetic. *)
Definition as_float (v : value) : result pyfloat :=
  match v with
  | VFloat x => Ok x
  | VInt n => Ok (Fin (IZR n))
  | VBool b => Ok (Fin (if b then 1 else 0))
  | _ => Raise TypeError
  end.

(** An optional argument used in arithmetic: [None] is a type error. *)
Definition req (x : option pyfloat) : result pyfloat :=
  match x with
  | Some v => Ok v
  | None => Raise TypeError
  end.

Definition is_none {A : Type} (x : option A) : bool :=
  match x with None => true | Some _ => false end.



(** A dictionary with values of any type (functions, nested dictionaries). *)
Fixpoint assoc {A : Type} (k : string) (l : list (string * A)) : option A :=
  match l with
  | [] => None
  | (k', v) :: l' => if String.eqb k k' then Some v else assoc k l'
  end.

(** [needle in hay] on strings. *)
Fixpoint contains (needle hay : string) : bool :=
  String.prefix needle hay
  || match hay with
     | EmptyString => false
     | String _ hay' => contains needle hay'
     end.

(** Sequence or scalar argument ([Union[float, List[float]]]), over any
    type of floats. *)
Inductive arg (F : Type) : Type :=
| Scalar (x : F)
| Seq (l : list F).
Arguments Scalar {F} x.
Arguments Seq {F} l.

End Py.
Import Py.

Notation "x <- m ;; k" := (bind m (fun x => k))
  (at level 61, m at next level, right associativity).

Notation "' p <- m ;; k" := (bind m (fun p => k))
  (at level 61, p pattern, m at next level, right associativity).

(* ================================================================== *)
(** ** pc_version/modules/kinematics.py *)
(* ================================================================== *)

(** The [while y[-1] >= 0] loop of [projectile_motion], over an abstract
    arithmetic [F].  The five Python lists are kept as they are: each
    iteration appends one sample to every list and reads the last ones. *)
Section EulerLoop.
Variable F : Type.
Variables (zero dt : F).
Variables (add sub mul : F -> F -> F) (opp sqrt : F -> F).
Variable ge_zero : F -> bool.

Record samples : Type := mkSamples {
  xs : list F; ys : list F; vxs : list F; vys : list F; ts : list F
}.

(** [l[-1]] *)
Definition last_of (l : list F) : F := last l zero.


(** One pass through the loop body; [x**2] is read as [x * x]. *)
Definition euler_step (g drag_coefficient : F) (s : samples) : samples :=
  let v := sqrt (add (mul (last_of (vxs s)) (last_of (vxs s)))
                     (mul (last_of (vys s)) (last_of (vys s)))) in
  let fx := mul (mul (opp drag_coefficient) v) (last_of (vxs s)) in
  let fy := sub (mul (mul (opp drag_coefficient) v) (last_of (vys s))) g in
  let vxs' := vxs s ++ [add (last_of (vxs s)) (mul fx dt)] in
  let vys' := vys s ++ [add (last_of (vys s)) (mul fy dt)] in
  let xs' := xs s ++ [add (last_of (xs s)) (mul (last_of vxs') dt)] in
  let ys' := ys s ++ [add (last_of (ys s)) (mul (last_of vys') dt)] in
  let ts' := ts s ++ [add (last_of (ts s)) dt] in
  mkSamples xs' ys' vxs' vys' ts'.

(** The loop, with [fuel] bounding the number of passes: [None] when the
    guard still holds after [fuel] passes. *)
Fixpoint air_resistance_loop (fuel : nat) (g drag_coefficient : F)
    (s : samples) : option samples :=
  if ge_zero (last_of (ys s)) then
    match fuel with
    | O => None
    | S fuel' =>
        air_resistance_loop fuel' g drag_coefficient
          (euler_step g drag_coefficient s)
    end
  else Some s.







End EulerLoop.

Arguments mkSamples {F}.
Arguments xs {F}. Arguments ys {F}. Arguments vxs {F}.
Arguments vys {F}. Arguments ts {F}.

(** The float operations of [four_bar_mechanism], over an abstract type of
    floats.  [pow2] is [x ** 2] on a Python float (a link length), which can
    raise; [square] is [x ** 2] on a NumPy scalar, which cannot; [div] is the
    division of NumPy; [negative x] is the comparison [x < 0]. *)
Module IEEE.

Record ops : Type := mkOps {
  num : Type;
  two : num;
  add : num -> num -> num;
  sub : num -> num -> num;
  mul : num -> num -> num;
  div : num -> num -> num;
  neg : num -> num;
  sqrt : num -> num;
  cos : num -> num;
  sin : num -> num;
  arctan : num -> num;
  arctan2 : num -> num -> num;
  radians : num -> num;
  degrees : num -> num;
  square : num -> num;
  pow2 : num -> result num;
  negative : num -> bool;
  is_nan : num -> bool
}.

(** What IEEE 754 and NumPy guarantee about NaN, as far as [solve_position]
    relies on it: the square root of a negative number is NaN, NaN goes
    through every operation, and a power of a Python float raises nothing
    but [OverflowError]. *)
Record nan_rules (o : ops) : Prop := mkRules {
  sqrt_negative :
    forall x, negative o x = true -> is_nan o (sqrt o x) = true;
  add_nan_r : forall x y, is_nan o y = true -> is_nan o (add o x y) = true;
  sub_nan_l : forall x y, is_nan o x = true -> is_nan o (sub o x y) = true;
  mul_nan_r : forall x y, is_nan o y = true -> is_nan o (mul o x y) = true;
  div_nan_l : forall x y, is_nan o x = true -> is_nan o (div o x y) = true;
  sin_nan : forall x, is_nan o x = true -> is_nan o (sin o x) = true;
  arctan_nan : forall x, is_nan o x = true -> is_nan o (arctan o x) = true;
  arctan2_nan_l :
    forall x y, is_nan o x = true -> is_nan o (arctan2 o x y) = true;
  degrees_nan : forall x, is_nan o x = true -> is_nan o (degrees o x) = true;
  pow2_outcome :
    forall x, pow2 o x = Raise OverflowError \/ exists y, pow2 o x = Ok y
}.

End IEEE.

(** An entry of the result set of [four_bar_mechanism]: one angle, or a list
    of angles. *)
Inductive entry (F : Type) : Type :=
| One (x : F)
| Many (l : list F).
Arguments One {F} x.
Arguments Many {F} l.

Module FourBar.
Section Ops.
Variable o : IEEE.ops.
Local Abbreviation F := (IEEE.num o).

(** The coefficients [A], [B] and [C] of the loop-closure equation, as the
    first three lines of [solve_position] compute them. *)
Definition coefficients (a b c d theta : F) : result (F * F * F) :=
  let A := IEEE.mul o (IEEE.mul o (IEEE.mul o (IEEE.two o) a) d)
             (IEEE.cos o theta) in
  let B := IEEE.mul o (IEEE.mul o (IEEE.mul o (IEEE.two o) a) d)
             (IEEE.sin o theta) in
  a2 <- IEEE.pow2 o a ;;
  d2 <- IEEE.pow2 o d ;;
  b2 <- IEEE.pow2 o b ;;
  c2 <- IEEE.pow2 o c ;;
  let C :=
    IEEE.add o (IEEE.add o (IEEE.sub o (IEEE.add o a2 d2) b2) c2)
      (IEEE.mul o (IEEE.mul o (IEEE.mul o (IEEE.two o) a) d)
         (IEEE.cos o theta)) in
  Ok (A, B, C).

(** [A**2 + B**2 - C**2], on NumPy scalars. *)
Definition computed_discriminant (A B C : F) : F :=
  IEEE.sub o (IEEE.add o (IEEE.square o A) (IEEE.square o B))
    (IEEE.square o C).

(** The inner function [solve_position] of [four_bar_mechanism]. *)
Definition solve_position (a b c d theta : F) : result (F * F) :=
  ' (A, B, C) <- coefficients a b c d theta ;;
  let beta :=
    IEEE.mul o (IEEE.two o)
      (IEEE.arctan o
         (IEEE.div o
            (IEEE.add o (IEEE.neg o B)
               (IEEE.sqrt o (computed_discriminant A B C)))
            (IEEE.sub o C A))) in
  let gamma :=
    IEEE.arctan2 o
      (IEEE.sub o (IEEE.mul o c (IEEE.sin o beta))
                  (IEEE.mul o a (IEEE.sin o theta)))
      (IEEE.sub o (IEEE.mul o c (IEEE.cos o beta))
                  (IEEE.mul o a (IEEE.cos o theta))) in
  Ok (beta, gamma).

(** The loop [for angle in angles] of [four_bar_mechanism]: every pass
    appends one angle, in degrees, to [betas] and one to [gammas]. *)
Fixpoint solve_positions (a b c d : F) (angles : list F)
    : result (list F * list F) :=
  match angles with
  | [] => Ok ([], [])
  | angle :: rest =>
      ' (beta, gamma) <- solve_position a b c d angle ;;
      ' (betas, gammas) <- solve_positions a b c d rest ;;
      Ok (IEEE.degrees o beta :: betas, IEEE.degrees o gamma :: gammas)
  end.

Definition four_bar_mechanism
    (crank_length coupler_length rocker_length ground_length : F)
    (crank_angle : arg F) : result (list (string * entry F)) :=
  let solve :=
    solve_position crank_length coupler_length rocker_length ground_length in
  match crank_angle with
  | Scalar angle =>
      ' (beta, gamma) <- solve (IEEE.radians o angle) ;;
      Ok [("rocker_angle", One (IEEE.degrees o beta));
          ("coupler_angle", One (IEEE.degrees o gamma))]
  | Seq angles =>
      ' (betas, gammas) <-
        solve_positions crank_length coupler_length rocker_length
          ground_length (map (IEEE.radians o) angles) ;;
      Ok [("rocker_angles", Many betas); ("coupler_angles", Many gammas)]
  end.
End Ops.
End FourBar.

Module Kinematics.



(** The drag loop over [pyfloat]. *)
Definition drag_loop (fuel : nat) (g drag_coefficient : pyfloat)
    (s : samples pyfloat) : option (samples pyfloat) :=
  air_resistance_loop pyfloat (Fin 0) (Fin 0.01) fadd fsub fmul fneg np_sqrt
    (fun y => fge y (Fin 0)) fuel g drag_coefficient s.


(** The operations of [four_bar_mechanism] over [pyfloat]. *)
Definition exact : IEEE.ops :=
  IEEE.mkOps pyfloat (Fin 2) fadd fsub fmul np_div fneg np_sqrt np_cos np_sin
    np_arctan np_arctan2 np_radians np_degrees
    (fun x => fpow x 2) (fun x => float_pow x 2)
    (fun x => flt x (Fin 0))
    (fun x => match x with NaN => true | _ => false end).

(** [four_bar_mechanism] over [pyfloat]. *)
Definition four_bar_mechanism
    (crank_length coupler_length rocker_length ground_length : pyfloat)
    (crank_angle : arg pyfloat) : result (list (string * entry pyfloat)) :=
  FourBar.four_bar_mechanism exact crank_length coupler_length rocker_length
    ground_length crank_angle.

(** The three lift profiles of [cam_analysis], keyed by name. *)
Definition lift_functions (lift : pyfloat)
    : list (string * (pyfloat -> pyfloat)) :=
  [("simple_harmonic",
    fun theta => fdiv (fmul lift (fsub (Fin 1) (np_cos theta))) (Fin 2));
   ("cycloidal",
    fun theta =>
      fmul lift (fsub (fdiv theta (fmul (Fin 2) np_pi))
                      (fdiv (np_sin theta) (fmul (Fin 2) np_pi))));
   ("parabolic",
    fun theta =>
      if flt theta np_pi
      then fmul (fmul (Fin 2) lift) (fpow (fdiv theta np_pi) 2)
      else fmul (fmul (Fin 2) lift)
                (fpow (fsub (Fin 2) (fdiv theta np_pi)) 2))].

Definition cam_types : list string :=
  map fst (lift_functions (Fin 0)).

(** [str] of a list of strings, as an f-string prints it. *)
Definition repr_list (l : list string) : string :=
  ("[" ++ String.concat ", " (map (fun k => "'" ++ k ++ "'") l) ++ "]")%string.

Definition cam_analysis (base_circle_radius lift : pyfloat)
    (angle : arg pyfloat) (cam_type : string) : result dict :=
  match assoc cam_type (lift_functions lift) with
  | None =>
      Raise (ValueError ("Unsupported cam type. Choose from: "
                         ++ repr_list (map fst (lift_functions lift)))%string)
  | Some lift_func =>
      match angle with
      | Scalar angle =>
          let theta := np_radians angle in
          let displacement := lift_func theta in
          Ok [("displacement", VFloat displacement);
              ("base_circle_radius", VFloat base_circle_radius);
              ("total_radius",
               VFloat (fadd base_circle_radius displacement))]
      | Seq angles =>
          let theta := map np_radians angles in
          let displacement := map lift_func theta in
          Ok [("displacement", VList displacement);
              ("base_circle_radius", VFloat base_circle_radius);
              ("total_radius",
               VList (map (fun d => fadd base_circle_radius d) displacement))]
      end
  end.

End Kinematics.

(* ================================================================== *)
(** ** pc_version/modules/stress_analysis.py *)
(* ================================================================== *)

Module StressAnalysis.


Definition vessel_types : list string :=
  ["thin_cylinder"; "thick_cylinder"; "sphere"].

Definition pressure_vessel_stress (pressure radius thickness : pyfloat)
    (vessel_type : string) : result dict :=
  if String.eqb vessel_type "thin_cylinder" then
    hoop_stress <- py_div (fmul pressure radius) thickness ;;
    longitudinal_stress <-
      py_div (fmul pressure radius) (fmul (Fin 2) thickness) ;;
    hoop2 <- float_pow hoop_stress 2 ;;
    long2 <- float_pow longitudinal_stress 2 ;;
    Ok [("hoop_stress", VFloat hoop_stress);
        ("longitudinal_stress", VFloat longitudinal_stress);
        ("von_mises_stress",
         VFloat (np_sqrt (fadd (fsub hoop2
                                     (fmul hoop_stress longitudinal_stress))
                               long2)))]
  else if String.eqb vessel_type "thick_cylinder" then
    let r_o := fadd radius thickness in
    let r_i := radius in
    r_o2 <- float_pow r_o 2 ;;
    r_i2 <- float_pow r_i 2 ;;
    c <- py_div r_o2 r_i2 ;;
    hoop_stress_inner <-
      py_div (fmul pressure (fadd c (Fin 1))) (fsub c (Fin 1)) ;;
    hoop_stress_outer <- py_div (fmul (Fin 2) pressure) (fsub c (Fin 1)) ;;
    Ok [("hoop_stress_inner", VFloat hoop_stress_inner);
        ("hoop_stress_outer", VFloat hoop_stress_outer);
        ("radial_stress_inner", VFloat (fneg pressure));
        ("radial_stress_outer", VInt 0)]
  else if String.eqb vessel_type "sphere" then
    hoop_stress <- py_div (fmul pressure radius) (fmul (Fin 2) thickness) ;;
    Ok [("hoop_stress", VFloat hoop_stress);
        ("von_mises_stress", VFloat hoop_stress)]
  else
    Raise (ValueError
      "Invalid vessel type. Choose 'thin_cylinder', 'thick_cylinder', or 'sphere'").

(** The constraint names of the docstring: ['full' or 'partial']. *)
Definition constraint_types : list string := ["full"; "partial"].

Definition thermal_stress
    (temperature_change thermal_expansion youngs_modulus : pyfloat)
    (constraint : string) : result dict :=
  if String.eqb constraint "full" then
    let stress :=
      fmul (fmul (fneg thermal_expansion) youngs_modulus) temperature_change in
    Ok [("thermal_stress", VFloat stress); ("thermal_strain", VInt 0)]
  else
    let stress :=
      fmul (fmul (fmul (Fin (- 0.5)) thermal_expansion) youngs_modulus)
           temperature_change in
    let strain :=
      fmul (fmul (Fin 0.5) thermal_expansion) temperature_change in
    Ok [("thermal_stress", VFloat stress); ("thermal_strain", VFloat strain)].

End StressAnalysis.

(* ================================================================== *)
(** ** pc_version/modules/fluid_mechanics.py *)
(* ================================================================== *)

Module FluidMechanics.

Definition channel_types : list string := ["rectangular"].

Definition open_channel_flow
    (channel_width flow_depth slope manning_n : pyfloat)
    (channel_type : string) : result dict :=
  if String.eqb channel_type "rectangular" then
    let area := fmul channel_width flow_depth in
    let wetted_perimeter := fadd channel_width (fmul (Fin 2) flow_depth) in
    hydraulic_radius <- py_div area wetted_perimeter ;;
    inv_n <- py_div (Fin 1) manning_n ;;
    hr_pow <- py_pow hydraulic_radius (2 / 3) ;;
    let velocity := fmul (fmul inv_n hr_pow) (np_sqrt slope) in
    let flow_rate := fmul velocity area in
    let froude := np_div velocity (np_sqrt (fmul (Fin 9.81) flow_depth)) in
    Ok [("flow_rate", VFloat flow_rate);
        ("velocity", VFloat velocity);
        ("froude_number", VFloat froude);
        ("flow_type",
         VStr (if flt froude (Fin 1) then "subcritical" else "supercritical"))]
  else
    Raise (ValueError "Only rectangular channels are currently supported").

Definition weir_types : list string := ["rectangular"; "v-notch"].

Definition weir_flow (weir_height weir_width head : pyfloat)
    (weir_type : string) : result dict :=
  let g := Fin 9.81 in
  if String.eqb weir_type "rectangular" then
    let discharge_coeff := Fin 0.61 in
    head_pow <- py_pow head (3 / 2) ;;
    let flow_rate :=
      fmul (fmul (fmul (fmul (Fin (2 / 3)) discharge_coeff) weir_width)
                 (np_sqrt (fmul (Fin 2) g)))
           head_pow in
    Ok [("flow_rate", VFloat flow_rate);
        ("discharge_coefficient", VFloat discharge_coeff)]
  else if String.eqb weir_type "v-notch" then
    let theta := np_radians (Fin 90) in
    let discharge_coeff := Fin 0.59 in
    head_pow <- py_pow head (5 / 2) ;;
    let flow_rate :=
      fmul (fmul (fmul (fmul (Fin (8 / 15)) discharge_coeff)
                       (np_tan (fdiv theta (Fin 2))))
                 (np_sqrt (fmul (Fin 2) g)))
           head_pow in
    Ok [("flow_rate", VFloat flow_rate);
        ("discharge_coefficient", VFloat discharge_coeff)]
  else
    Raise (ValueError "Invalid weir type. Choose 'rectangular' or 'v-notch'").

End FluidMechanics.

(* ================================================================== *)
(** ** pc_version/modules/thermodynamics.py *)
(* ================================================================== *)

Module Thermodynamics.

(** [sum(x is None for x in l)] *)
Definition count_none (l : list (option pyfloat)) : nat :=
  List.length (filter is_none l).

Definition ideal_gas_law (pressure volume moles temperature : option pyfloat)
    (gas_constant : pyfloat) : result dict :=
  if negb (Nat.eqb (count_none [pressure; volume; moles; temperature]) 1) then
    Raise (ValueError
      "Exactly three parameters must be provided to solve for the fourth")
  else if is_none pressure then
    n <- req moles ;; t <- req temperature ;; v <- req volume ;;
    pressure <- py_div (fmul (fmul n gas_constant) t) v ;;
    Ok [("pressure", VFloat pressure)]
  else if is_none volume then
    n <- req moles ;; t <- req temperature ;; p <- req pressure ;;
    volume <- py_div (fmul (fmul n gas_constant) t) p ;;
    Ok [("volume", VFloat volume)]
  else if is_none moles then
    p <- req pressure ;; v <- req volume ;; t <- req temperature ;;
    moles <- py_div (fmul p v) (fmul gas_constant t) ;;
    Ok [("moles", VFloat moles)]
  else
    p <- req pressure ;; v <- req volume ;; n <- req moles ;;
    temperature <- py_div (fmul p v) (fmul n gas_constant) ;;
    Ok [("temperature", VFloat temperature)].


Definition heat_transfer_modes : list string :=
  ["conduction"; "convection"; "radiation"].

Definition heat_transfer (area k temp_diff thickness : pyfloat)
    (mode : string) : result dict :=
  let results : dict := [] in
  if String.eqb mode "conduction" then
    q <- py_div (fmul (fmul k area) temp_diff) thickness ;;
    let results := dict_set "heat_transfer_rate" (VFloat q) results in
    r <- py_div thickness (fmul k area) ;;
    let results := dict_set "thermal_resistance" (VFloat r) results in
    Ok results
  else if String.eqb mode "convection" then
    let q := fmul (fmul k area) temp_diff in
    let results := dict_set "heat_transfer_rate" (VFloat q) results in
    r <- py_div (Fin 1) (fmul k area) ;;
    let results := dict_set "thermal_resistance" (VFloat r) results in
    Ok results
  else if String.eqb mode "radiation" then
    let sigma := Fin 5.67e-8 in
    p <- float_pow temp_diff 4 ;;
    let q := fmul (fmul (fmul sigma area) k) p in
    let results := dict_set "heat_transfer_rate" (VFloat q) results in
    Ok results
  else
    Ok results.

End Thermodynamics.

(* ================================================================== *)
(** ** pc_version/modules/machine_design.py *)
(* ================================================================== *)

Module MachineDesign.

Definition std_sizes : list Z :=
  [10; 12; 15; 17; 20; 25; 30; 35; 40; 45; 50; 55; 60; 70; 80; 90; 100]%Z.

Definition math_pi : pyfloat := Fin PI.




End MachineDesign.

(* ================================================================== *)
(** ** termux_version/modules *)
(* ================================================================== *)

Module Termux.

Definition MATERIALS_DB : list (string * dict) :=
  [("STEEL_1045",
    [("name", VStr "Steel AISI 1045");
     ("density", VInt 7850);
     ("elastic_modulus", VInt 205);
     ("poisson_ratio", VFloat (Fin 0.29));
     ("yield_strength", VInt 505);
     ("ultimate_strength", VInt 585);
     ("thermal_conductivity", VFloat (Fin 49.8));
     ("thermal_expansion", VFloat (Fin 11.5e-6))]);
   ("AL_6061",
    [("name", VStr "Aluminum 6061-T6");
     ("density", VInt 2700);
     ("elastic_modulus", VFloat (Fin 68.9));
     ("poisson_ratio", VFloat (Fin 0.33));
     ("yield_strength", VInt 276);
     ("ultimate_strength", VInt 310);
     ("thermal_conductivity", VInt 167);
     ("thermal_expansion", VFloat (Fin 23.6e-6))]);
   ("BRASS_360",
    [("name", VStr "Brass C360");
     ("density", VInt 8500);
     ("elastic_modulus", VInt 97);
     ("poisson_ratio", VFloat (Fin 0.34));
     ("yield_strength", VInt 310);
     ("ultimate_strength", VInt 379);
     ("thermal_conductivity", VInt 115);
     ("thermal_expansion", VFloat (Fin 20.3e-6))])].

(** [MATERIALS_DB.get(material_code, {})] *)
Definition get_material_properties (material_code : string) : dict :=
  match assoc material_code MATERIALS_DB with
  | Some properties => properties
  | None => []
  end.

(** [if not properties: raise ValueError(...)] *)
Definition found (properties : dict) : result dict :=
  match properties with
  | [] => Raise (ValueError "Material not found in database")
  | _ => Ok properties
  end.

Definition calculate_stress_strain (force area : pyfloat)
    (material_code : string) : result dict :=
  properties <- found (get_material_properties material_code) ;;
  stress <- py_div force area ;;
  e <- getitem properties "elastic_modulus" ;; e <- as_float e ;;
  strain <- py_div stress (fmul e (Fin 1e9)) ;;
  y <- getitem properties "yield_strength" ;; y <- as_float y ;;
  safety_factor <- py_div (fmul y (Fin 1e6)) stress ;;
  Ok [("stress", VFloat stress);
      ("strain", VFloat strain);
      ("safety_factor", VFloat safety_factor)].

Definition thermal_expansion (material_code : string)
    (initial_length temperature_change : pyfloat) : result dict :=
  properties <- found (get_material_properties material_code) ;;
  a <- getitem properties "thermal_expansion" ;; a <- as_float a ;;
  let delta_l := fmul (fmul initial_length a) temperature_change in
  let final_length := fadd initial_length delta_l in
  strain <- py_div delta_l initial_length ;;
  Ok [("length_change", VFloat delta_l);
      ("final_length", VFloat final_length);
      ("strain", VFloat strain)].

Definition heat_conduction (material_code : string)
    (area thickness temperature_difference : pyfloat) : result dict :=
  properties <- found (get_material_properties material_code) ;;
  k <- getitem properties "thermal_conductivity" ;; k <- as_float k ;;
  heat_flux <- py_div (fmul (fmul k area) temperature_difference) thickness ;;
  k <- getitem properties "thermal_conductivity" ;; k <- as_float k ;;
  thermal_resistance <- py_div thickness (fmul k area) ;;
  Ok [("heat_flux", VFloat heat_flux);
      ("thermal_resistance", VFloat thermal_resistance)].

Definition material_costs : list (string * pyfloat) :=
  [("STEEL_1045", Fin 2.5); ("AL_6061", Fin 4.8); ("BRASS_360", Fin 7.2)].

Definition material_cost_estimate (material_code : string)
    (volume processing_factor : pyfloat) : result dict :=
  properties <- found (get_material_properties material_code) ;;
  d <- getitem properties "density" ;; d <- as_float d ;;
  let mass := fmul d volume in
  let rate := match assoc material_code material_costs with
              | Some c => c
              | None => Fin 0
              end in
  let base_cost := fmul mass rate in
  let total_cost := fmul base_cost processing_factor in
  Ok [("mass", VFloat mass);
      ("material_cost", VFloat base_cost);
      ("total_cost", VFloat total_cost)].

(** termux_version/modules/thermodynamics.py: same body as the desktop
    [ideal_gas_law], with a shorter message. *)
Definition ideal_gas_law (pressure volume moles temperature : option pyfloat)
    (gas_constant : pyfloat) : result dict :=
  if negb (Nat.eqb (Thermodynamics.count_none
                      [pressure; volume; moles; temperature]) 1) then
    Raise (ValueError "Exactly three parameters must be provided")
  else if is_none pressure then
    n <- req moles ;; t <- req temperature ;; v <- req volume ;;
    pressure <- py_div (fmul (fmul n gas_constant) t) v ;;
    Ok [("pressure", VFloat pressure)]
  else if is_none volume then
    n <- req moles ;; t <- req temperature ;; p <- req pressure ;;
    volume <- py_div (fmul (fmul n gas_constant) t) p ;;
    Ok [("volume", VFloat volume)]
  else if is_none moles then
    p <- req pressure ;; v <- req volume ;; t <- req temperature ;;
    moles <- py_div (fmul p v) (fmul gas_constant t) ;;
    Ok [("moles", VFloat moles)]
  else
    p <- req pressure ;; v <- req volume ;; n <- req moles ;;
    temperature <- py_div (fmul p v) (fmul n gas_constant) ;;
    Ok [("temperature", VFloat temperature)].

(** The mobile [heat_transfer] returns a bare float; any mode other than
    conduction and convection takes the radiation formula. *)
Definition heat_transfer (area k temp_diff thickness : pyfloat)
    (mode : string) : result pyfloat :=
  if String.eqb mode "conduction" then
    py_div (fmul (fmul k area) temp_diff) thickness
  else if String.eqb mode "convection" then
    Ok (fmul (fmul k area) temp_diff)
  else
    p <- math_pow temp_diff 4 ;;
    Ok (fmul (fmul k area) p).

End Termux.

(* ================================================================== *)
(** ** IEEE binary64 reading of [solve_position] and of the drag loop *)
(* ================================================================== *)

Module Binary64.

Definition b64 : Type := PrimFloat.float.

Definition of_Z (z : Z) : b64 := PrimFloat.of_uint63 (Uint63.of_Z z).

(** A decimal literal [n / d] with [n] and [d] below [2^53]: one correctly
    rounded division of two exact integers gives the nearest double. *)
Definition lit (n d : Z) : b64 := PrimFloat.div (of_Z n) (of_Z d).

(** [dt = 0.01] *)
Definition dt : b64 := lit 1 100.

(** [y >= 0] *)
Definition nonneg (y : b64) : bool := PrimFloat.leb (of_Z 0) y.

Definition drag_loop (fuel : nat) (g drag_coefficient : b64)
    (s : samples b64) : option (samples b64) :=
  air_resistance_loop b64 (of_Z 0) dt PrimFloat.add PrimFloat.sub
    PrimFloat.mul PrimFloat.opp PrimFloat.sqrt nonneg
    fuel g drag_coefficient s.








(** [x ** 2] on a Python float: CPython raises when the square of a finite
    base is an infinity. *)
Definition pow2 (x : b64) : result b64 :=
  let p := PrimFloat.mul x x in
  if PrimFloat.is_infinity p && negb (PrimFloat.is_infinity x)
  then Raise OverflowError
  else Ok p.

(** [pi] as NumPy holds it: the double nearest to 3.141592653589793. *)
Definition pi64 : b64 := lit 3141592653589793 1000000000000000.

(** The operations of [four_bar_mechanism] in binary64.  [PrimFloat] has no
    trigonometry: the four functions of NumPy are parameters. *)
Definition ops (cos sin arctan : b64 -> b64) (arctan2 : b64 -> b64 -> b64)
    : IEEE.ops :=
  IEEE.mkOps b64 (of_Z 2) PrimFloat.add PrimFloat.sub PrimFloat.mul
    PrimFloat.div PrimFloat.opp PrimFloat.sqrt cos sin arctan arctan2
    (fun x => PrimFloat.mul x (PrimFloat.div pi64 (of_Z 180)))
    (fun x => PrimFloat.mul x (PrimFloat.div (of_Z 180) pi64))
    (fun x => PrimFloat.mul x x) pow2
    (fun x => PrimFloat.ltb x (of_Z 0)) PrimFloat.is_nan.

End Binary64.

(* ================================================================== *)
(** ** The [math] module and built-ins used by the remaining functions *)
(* ================================================================== *)

Module PyMath.

(** The text CPython up to 3.13 gives a [ValueError] of the [math] module. *)
Definition domain_error : exn := ValueError "math domain error".


Definition math_sin (x : pyfloat) : result pyfloat :=
  match x with
  | NaN => Ok NaN
  | Inf _ => Raise domain_error
  | Fin r => Ok (Fin (sin r))
  end.



Definition math_asin (x : pyfloat) : result pyfloat :=
  match x with
  | NaN => Ok NaN
  | Inf _ => Raise domain_error
  | Fin r => if Rleb (- 1) r && Rleb r 1 then Ok (Fin (asin r))
             else Raise domain_error
  end.

(** [math.log]: raises at zero and below. *)
Definition math_log (x : pyfloat) : result pyfloat :=
  match x with
  | NaN => Ok NaN
  | Inf s => if s then Raise domain_error else Ok (Inf false)
  | Fin r => if Rltb 0 r then Ok (Fin (ln r)) else Raise domain_error
  end.

Definition math_exp (x : pyfloat) : pyfloat :=
  match x with
  | NaN => NaN
  | Inf s => if s then Fin 0 else Inf false
  | Fin r => Fin (exp r)
  end.

(** [abs(x)] *)
Definition fabs (x : pyfloat) : pyfloat :=
  match x with
  | NaN => NaN
  | Inf _ => Inf false
  | Fin r => Fin (Rabs r)
  end.

(** [min(l, key=key)]: the first element whose key is minimal; an element
    replaces the best one so far only when its key is strictly smaller. *)
Fixpoint min_by_from {A : Type} (key : A -> pyfloat) (best : A) (l : list A)
    : A :=
  match l with
  | [] => best
  | x :: l' =>
      min_by_from key (if flt (key x) (key best) then x else best) l'
  end.

Definition min_by {A : Type} (key : A -> pyfloat) (l : list A) : result A :=
  match l with
  | [] => Raise (ValueError "min() arg is an empty sequence")
  | x :: l' => Ok (min_by_from key x l')
  end.

(** [r[k]] on the result set of a call, where there is one. *)
Definition field (k : string) (r : result dict) : result value :=
  d <- r ;; getitem d k.

End PyMath.
Import PyMath.

(* ================================================================== *)
(** ** pc_version/modules/kinematics.py: the remaining functions *)
(* ================================================================== *)

Module KinematicsRest.


(** The loop [for i in range(0, len(gear_teeth) - 1, 2)] of
    [gear_train_analysis]: the gears are visited in pairs [(i, i + 1)], and a
    last gear without a partner is not visited. *)
Fixpoint overall_ratio (gear_teeth : list Z) (ratio : pyfloat)
    : result pyfloat :=
  match gear_teeth with
  | driver :: driven :: rest =>
      q <- int_truediv driven driver ;;
      overall_ratio rest (fmul ratio q)
  | _ => Ok ratio
  end.

Definition gear_train_analysis (gear_teeth : list Z)
    (input_speed efficiency : pyfloat) : result dict :=
  if (List.length gear_teeth <? 2)%nat then
    Raise (ValueError "Need at least 2 gears in the train")
  else
    ratio <- overall_ratio gear_teeth (Fin 1) ;;
    output_speed <- py_div input_speed ratio ;;
    let pitch_velocities :=
      map (fun teeth =>
             fdiv (fmul (fmul (Fin (IZR teeth)) input_speed) np_pi) (Fin 60))
          gear_teeth in
    let input_power := Fin 1 in
    e <- float_pow efficiency (List.length gear_teeth - 1) ;;
    let output_power := fmul input_power e in
    e' <- float_pow efficiency (List.length gear_teeth - 1) ;;
    Ok [("gear_ratio", VFloat ratio);
        ("output_speed", VFloat output_speed);
        ("pitch_velocities", VList pitch_velocities);
        ("output_power", VFloat output_power);
        ("efficiency", VFloat e')].

End KinematicsRest.

(* ================================================================== *)
(** ** pc_version/modules/stress_analysis.py: the remaining functions *)
(* ================================================================== *)

Module StressAnalysisRest.

Definition calculate_stress (force area : pyfloat) : result pyfloat :=
  py_div force area.

Definition calculate_strain (stress youngs_modulus : pyfloat)
    : result pyfloat :=
  py_div stress youngs_modulus.

Definition beam_bending_stress (moment distance moment_of_inertia : pyfloat)
    : result pyfloat :=
  py_div (fmul moment distance) moment_of_inertia.

Definition factors : list (string * pyfloat) :=
  [("point_center", Fin (1 / 48));
   ("point_end", Fin (1 / 3));
   ("uniform", Fin (5 / 384))].

Definition load_types : list string := map fst factors.

Definition beam_deflection
    (load length elastic_modulus moment_of_inertia : pyfloat)
    (load_type : string) : result dict :=
  match assoc load_type factors with
  | None =>
      Raise (ValueError ("Unsupported load type. Choose from: "
                         ++ Kinematics.repr_list (map fst factors))%string)
  | Some factor =>
      length3 <- float_pow length 3 ;;
      max_deflection <-
        py_div (fmul (fmul factor load) length3)
               (fmul elastic_modulus moment_of_inertia) ;;
      max_moment <-
        (if String.eqb load_type "point_center" then
           Ok (fdiv (fmul load length) (Fin 4))
         else if String.eqb load_type "point_end" then
           Ok (fmul load length)
         else
           length2 <- float_pow length 2 ;;
           Ok (fdiv (fmul load length2) (Fin 8))) ;;
      Ok [("max_deflection", VFloat max_deflection);
          ("max_moment", VFloat max_moment)]
  end.

Definition combined_stress (normal_stress shear_stress : pyfloat)
    : result dict :=
  let avg_normal := fdiv normal_stress (Fin 2) in
  half2 <- float_pow (fdiv normal_stress (Fin 2)) 2 ;;
  shear2 <- float_pow shear_stress 2 ;;
  let radius := np_sqrt (fadd half2 shear2) in
  let principal_1 := fadd avg_normal radius in
  let principal_2 := fsub avg_normal radius in
  let max_shear := radius in
  Ok [("principal_stress_1", VFloat principal_1);
      ("principal_stress_2", VFloat principal_2);
      ("max_shear_stress", VFloat max_shear);
      ("angle_principal",
       VFloat (fdiv (np_degrees
                       (np_arctan2 (fmul (Fin 2) shear_stress) normal_stress))
                    (Fin 2)))].

Definition torsional_stress (torque radius polar_moment : pyfloat)
    : result dict :=
  shear_stress <- py_div (fmul torque radius) polar_moment ;;
  Ok [("shear_stress", VFloat shear_stress);
      ("max_shear_stress", VFloat shear_stress)].



End StressAnalysisRest.

(* ================================================================== *)
(** ** pc_version/modules/fluid_mechanics.py: the remaining functions *)
(* ================================================================== *)

Module FluidMechanicsRest.




Definition flow_rate_to_velocity (flow_rate diameter : pyfloat)
    : result pyfloat :=
  half2 <- float_pow (fdiv diameter (Fin 2)) 2 ;;
  let area := fmul np_pi half2 in
  py_div flow_rate area.

Definition pump_power (flow_rate head efficiency fluid_density : pyfloat)
    : result dict :=
  let hydraulic_power :=
    fmul (fmul (fmul fluid_density (Fin 9.81)) flow_rate) head in
  shaft_power <- py_div hydraulic_power efficiency ;;
  Ok [("hydraulic_power", VFloat hydraulic_power);
      ("shaft_power", VFloat shaft_power);
      ("efficiency", VFloat efficiency)].


Definition nozzle_thrust
    (mass_flow_rate exit_velocity exit_pressure ambient_pressure exit_area
     : pyfloat) : result dict :=
  let momentum_thrust := fmul mass_flow_rate exit_velocity in
  let pressure_thrust :=
    fmul (fsub exit_pressure ambient_pressure) exit_area in
  let total_thrust := fadd momentum_thrust pressure_thrust in
  Ok [("momentum_thrust", VFloat momentum_thrust);
      ("pressure_thrust", VFloat pressure_thrust);
      ("total_thrust", VFloat total_thrust)].

Definition drag_force
    (velocity fluid_density reference_area drag_coefficient : pyfloat)
    : result dict :=
  v2 <- float_pow velocity 2 ;;
  let dynamic_pressure := fmul (fmul (Fin 0.5) fluid_density) v2 in
  let drag := fmul (fmul drag_coefficient dynamic_pressure) reference_area in
  Ok [("drag_force", VFloat drag);
      ("dynamic_pressure", VFloat dynamic_pressure)].



End FluidMechanicsRest.

(* ================================================================== *)
(** ** pc_version/modules/thermodynamics.py: the remaining functions *)
(* ================================================================== *)

Module ThermodynamicsRest.

Definition carnot_efficiency (t_hot t_cold : pyfloat) : result dict :=
  if fle t_hot t_cold then
    Raise (ValueError "Hot temperature must be greater than cold temperature")
  else
    q <- py_div t_cold t_hot ;;
    let efficiency := fsub (Fin 1) q in
    Ok [("efficiency", VFloat efficiency);
        ("efficiency_percent", VFloat (fmul efficiency (Fin 100)))].

(** The table [properties] of [refrigeration_cycle]. *)
Definition properties : list (string * dict) :=
  [("R134a", [("h_fg", VInt 200); ("cp", VFloat (Fin 1.43))])].



Definition heat_exchanger_design
    (hot_inlet_temp hot_outlet_temp cold_inlet_temp mass_flow_hot
     mass_flow_cold cp_hot cp_cold overall_htc : pyfloat) : result dict :=
  let q :=
    fmul (fmul mass_flow_hot cp_hot) (fsub hot_inlet_temp hot_outlet_temp) in
  rise <- py_div q (fmul mass_flow_cold cp_cold) ;;
  let cold_outlet_temp := fadd cold_inlet_temp rise in
  let delta_t1 := fsub hot_inlet_temp cold_outlet_temp in
  let delta_t2 := fsub hot_outlet_temp cold_inlet_temp in
  quotient <- py_div delta_t1 delta_t2 ;;
  log_quotient <- math_log quotient ;;
  lmtd <- py_div (fsub delta_t1 delta_t2) log_quotient ;;
  area <- py_div q (fmul overall_htc lmtd) ;;
  let q_max :=
    fmul (py_min (fmul mass_flow_hot cp_hot) (fmul mass_flow_cold cp_cold))
         (fsub hot_inlet_temp cold_inlet_temp) in
  effectiveness <- py_div q q_max ;;
  ntu <- py_div (fmul overall_htc area)
                (py_min (fmul mass_flow_hot cp_hot)
                        (fmul mass_flow_cold cp_cold)) ;;
  Ok [("heat_transfer_rate", VFloat q);
      ("cold_outlet_temp", VFloat cold_outlet_temp);
      ("lmtd", VFloat lmtd);
      ("required_area", VFloat area);
      ("effectiveness", VFloat effectiveness);
      ("ntu", VFloat ntu)].

End ThermodynamicsRest.

(* ================================================================== *)
(** ** pc_version/modules/machine_design.py: the remaining functions *)
(* ================================================================== *)

Module MachineDesignRest.



(** [bearing_life] can raise an exception that the other functions cannot:
    a [KeyError] whose key is a float. *)
Inductive raised : Type :=
| Base (e : exn)
| KeyErrorFloat (key : pyfloat).

Inductive outcome (A : Type) : Type :=
| Returned (a : A)
| Raised (e : raised)
| WentComplex.
Arguments Returned {A} a.
Arguments Raised {A} e.
Arguments WentComplex {A}.

Definition lift {A : Type} (m : result A) : outcome A :=
  match m with
  | Ok a => Returned a
  | Raise e => Raised (Base e)
  | Complex => WentComplex
  end.

Definition and_then {A B : Type} (m : outcome A) (k : A -> outcome B)
    : outcome B :=
  match m with
  | Returned a => k a
  | Raised e => Raised e
  | WentComplex => WentComplex
  end.



(** [math.ceil] *)
Definition math_ceil (x : pyfloat) : outcome Z :=
  match x with
  | NaN => Raised (Base (ValueError "cannot convert float NaN to integer"))
  | Inf _ => Raised (Base OverflowError)
  | Fin r => Returned (Zceil r)
  end.

(** The reliability factors [a1] of [bearing_life]. *)
Definition a1 : list (pyfloat * pyfloat) :=
  [(Fin 0.90, Fin 1.00); (Fin 0.95, Fin 0.62); (Fin 0.99, Fin 0.21)].


(** The pulley diameters of [belt_design], in mm. *)
Definition std_sizes : list Z :=
  [63; 71; 80; 90; 100; 112; 125; 140; 160; 180; 200; 224; 250; 280; 315]%Z.

(** [min(std_sizes, key=lambda x: abs(x - target))] *)
Definition nearest_size (target : pyfloat) : result Z :=
  min_by (fun x => fabs (fsub (Fin (IZR x)) target)) std_sizes.

(** The branch on [belt_type] of [belt_design] that sets [tension_ratio].
    The wrap angle [alpha1] lies between 0 and [2 pi], so the argument of
    [math.exp] stays below 8, far from its overflow. *)
Definition tension_ratio_of (belt_type : string) (alpha1 : pyfloat)
    : outcome pyfloat :=
  if String.eqb belt_type "V" then
    let mu := Fin 0.35 in
    let beta := fdiv (fmul (Fin 34) MachineDesign.math_pi) (Fin 180) in
    and_then (lift (math_sin (fdiv beta (Fin 2)))) (fun sin_half =>
    and_then (lift (py_div (fmul mu alpha1) sin_half)) (fun x =>
    Returned (math_exp x)))
  else
    let mu := Fin 0.30 in
    Returned (math_exp (fmul mu alpha1)).

Definition belt_design
    (power speed_driver speed_driven center_distance : pyfloat)
    (belt_type : string) : outcome dict :=
  and_then (lift (py_div speed_driver speed_driven)) (fun ratio =>
  let service_factor := Fin 1.2 in
  let design_power := fmul power service_factor in
  and_then (lift (py_div (fmul power (Fin 1000)) speed_driver)) (fun q =>
  and_then (lift (math_sqrt q)) (fun root =>
  let d1 := fmul root (Fin 0.03) in
  let d2 := fmul d1 ratio in
  and_then (lift (nearest_size (fmul d1 (Fin 1000)))) (fun size1 =>
  let d1 := fdiv (Fin (IZR size1)) (Fin 1000) in
  and_then (lift (nearest_size (fmul d2 (Fin 1000)))) (fun size2 =>
  let d2 := fdiv (Fin (IZR size2)) (Fin 1000) in
  and_then (lift (float_pow (fsub d2 d1) 2)) (fun gap2 =>
  and_then (lift (py_div gap2 (fmul (Fin 4) center_distance))) (fun sag =>
  let belt_length :=
    fadd (fadd (fmul (Fin 2) center_distance)
               (fdiv (fmul MachineDesign.math_pi (fadd d1 d2)) (Fin 2)))
         sag in
  let v :=
    fdiv (fmul (fmul MachineDesign.math_pi d1) speed_driver) (Fin 60) in
  and_then (lift (py_div (fsub d2 d1) (fmul (Fin 2) center_distance)))
    (fun s1 =>
  and_then (lift (math_asin s1)) (fun a1 =>
  let alpha1 := fsub MachineDesign.math_pi (fmul (Fin 2) a1) in
  and_then (lift (py_div (fsub d2 d1) (fmul (Fin 2) center_distance)))
    (fun s2 =>
  and_then (lift (math_asin s2)) (fun a2 =>
  let alpha2 := fadd MachineDesign.math_pi (fmul (Fin 2) a2) in
  and_then (tension_ratio_of belt_type alpha1) (fun tension_ratio =>
  let power_per_belt := fmul power (Fin 1000) in
  and_then (lift (py_div power_per_belt v)) (fun t1 =>
  and_then (lift (py_div t1 tension_ratio)) (fun t2 =>
  and_then (lift (py_div design_power (fdiv power_per_belt (Fin 1000))))
    (fun belts =>
  and_then (math_ceil belts) (fun number_of_belts =>
  Returned
    [("driver_diameter", VFloat d1);
     ("driven_diameter", VFloat d2);
     ("belt_length", VFloat belt_length);
     ("belt_speed", VFloat v);
     ("wrap_angle_driver",
      VFloat (fdiv (fmul alpha1 (Fin 180)) MachineDesign.math_pi));
     ("wrap_angle_driven",
      VFloat (fdiv (fmul alpha2 (Fin 180)) MachineDesign.math_pi));
     ("tight_side_tension", VFloat t1);
     ("slack_side_tension", VFloat t2);
     ("power_per_belt", VFloat (fdiv power_per_belt (Fin 1000)));
     ("number_of_belts_required", VInt number_of_belts)])))))))))))))))).

End MachineDesignRest.

(* ================================================================== *)
(** ** termux_version/modules/thermodynamics.py: [steam_properties] *)
(* ================================================================== *)

Module TermuxRest.


End TermuxRest.

(* ================================================================== *)
(** ** Vocabulary of the statements *)
(* ================================================================== *)






Definition radians (angle : R) : R := angle * (PI / 180).
Definition degrees (angle : R) : R := angle * (180 / PI).

(** The coefficients of the loop-closure equation and its discriminant. *)
Definition coef_A (a d theta : R) : R := 2 * a * d * cos theta.
Definition coef_B (a d theta : R) : R := 2 * a * d * sin theta.
Definition coef_C (a b c d theta : R) : R :=
  a² + d² - b² + c² + 2 * a * d * cos theta.
Definition discriminant (a b c d theta : R) : R :=
  (coef_A a d theta)² + (coef_B a d theta)² - (coef_C a b c d theta)².




Definition not_found : exn := ValueError "Material not found in database".

(** The text of an error names every valid option. *)
Definition enumerates (msg : string) (options : list string) : Prop :=
  forall o, In o options -> contains o msg = true.

(** The call raises a [ValueError] whose text names every valid option. *)
Definition fails_enumerating (r : result dict) (options : list string) : Prop :=
  exists msg, r = Raise (ValueError msg) /\ enumerates msg options.





(** The entry [k] of a result set is the finite number [x]. *)
Definition has_float (r : result dict) (k : string) (x : R) : Prop :=
  field k r = Ok (VFloat (Fin x)).






(** [z] is a standard pulley size and no standard size is nearer to
    [target]. *)
Definition nearest_standard (z : Z) (target : R) : Prop :=
  In z MachineDesignRest.std_sizes
  /\ forall s, In s MachineDesignRest.std_sizes ->
       Rabs (IZR z - target) <= Rabs (IZR s - target).


(* ================================================================== *)
(** ** Basic facts about the runtime model *)
(* ================================================================== *)

Lemma Rltb_true : forall a b, a < b -> Rltb a b = true.
Proof. intros a b H. unfold Rltb. destruct (Rlt_dec a b); [reflexivity | contradiction]. Qed.

Lemma Rltb_false : forall a b, ~ a < b -> Rltb a b = false.
Proof. intros a b H. unfold Rltb. destruct (Rlt_dec a b); [contradiction | reflexivity]. Qed.

Lemma Rleb_true : forall a b, a <= b -> Rleb a b = true.
Proof. intros a b H. unfold Rleb. destruct (Rle_dec a b); [reflexivity | contradiction]. Qed.

Lemma Rleb_false : forall a b, ~ a <= b -> Rleb a b = false.
Proof. intros a b H. unfold Rleb. destruct (Rle_dec a b); [contradiction | reflexivity]. Qed.

Lemma Reqb_true : forall a b, a = b -> Reqb a b = true.
Proof. intros a b H. unfold Reqb. destruct (Req_EM_T a b); [reflexivity | contradiction]. Qed.

Lemma Reqb_false : forall a b, a <> b -> Reqb a b = false.
Proof. intros a b H. unfold Reqb. destruct (Req_EM_T a b); [contradiction | reflexivity]. Qed.


Lemma Rleb_spec : forall a b, Rleb a b = true <-> a <= b.
Proof.
  intros a b. unfold Rleb. destruct (Rle_dec a b); split; intros; try easy.
Qed.

Lemma py_div_Fin : forall a b,
  b <> 0 -> py_div (Fin a) (Fin b) = Ok (Fin (a / b)).
Proof.
  intros a b Hb. unfold py_div, is_zero, fdiv. now rewrite (Reqb_false b 0).
Qed.

Lemma fdiv_Fin : forall a b, b <> 0 -> fdiv (Fin a) (Fin b) = Fin (a / b).
Proof. intros a b Hb. unfold fdiv. now rewrite (Reqb_false b 0). Qed.

Lemma py_div_zero : forall x, py_div x (Fin 0) = Raise ZeroDivisionError.
Proof.
  intros x. unfold py_div, is_zero. now rewrite (Reqb_true 0 0).
Qed.

Lemma py_div_cases : forall x y,
  py_div x y = if is_zero y then Raise ZeroDivisionError else Ok (fdiv x y).
Proof. reflexivity. Qed.

Lemma eqb_of_neq : forall s t : string, s <> t -> String.eqb s t = false.
Proof. intros s t H. now apply String.eqb_neq. Qed.

Lemma overflow_threshold_bounds : 1e308 < overflow_threshold < 2e308.
Proof. unfold overflow_threshold. split; lra. Qed.

Lemma overflows_false : forall p, in_range p -> overflows p = false.
Proof. intros p H. unfold overflows, in_range in *. apply Rleb_false. lra. Qed.


Lemma checked_in_range : forall p, in_range p -> checked p = Ok (Fin p).
Proof. intros p H. unfold checked. now rewrite overflows_false. Qed.


Lemma checked_inv : forall p q, checked p = Ok q -> in_range p /\ q = Fin p.
Proof.
  intros p q H. unfold checked, overflows, in_range in *.
  destruct (Rle_dec overflow_threshold (Rabs p)) as [Hle | Hlt].
  - rewrite Rleb_true in H by exact Hle. discriminate.
  - rewrite Rleb_false in H by exact Hlt. injection H as <-.
    split; [lra | reflexivity].
Qed.

Lemma checked_outcome : forall p,
  checked p = Raise OverflowError \/ checked p = Ok (Fin p).
Proof.
  intros p. unfold checked. destruct (overflows p); [left | right]; reflexivity.
Qed.

Lemma fpow_Fin : forall x n, fpow (Fin x) n = Fin (x ^ n).
Proof.
  intros x n. induction n as [| n IH]; [reflexivity |].
  destruct n as [| n].
  - cbn. f_equal. lra.
  - change (fpow (Fin x) (S (S n))) with (fmul (fpow (Fin x) (S n)) (Fin x)).
    rewrite IH. cbn [fmul]. f_equal. cbn [pow]. lra.
Qed.

(** A power of a finite Python float returns exactly when it stays in
    range. *)
Lemma float_pow_Fin : forall x n,
  in_range (x ^ n) -> float_pow (Fin x) n = Ok (Fin (x ^ n)).
Proof.
  intros x n H. unfold float_pow. rewrite fpow_Fin. now apply checked_in_range.
Qed.


Lemma float_pow_Fin_inv : forall x n p,
  float_pow (Fin x) n = Ok p -> in_range (x ^ n) /\ p = Fin (x ^ n).
Proof.
  intros x n p H. unfold float_pow in H. rewrite fpow_Fin in H.
  now apply checked_inv.
Qed.

Lemma float_pow_outcome : forall x n,
  float_pow x n = Raise OverflowError \/ exists p, float_pow x n = Ok p.
Proof.
  intros x n. unfold float_pow.
  destruct x as [| s | r]; try (right; eexists; reflexivity).
  destruct (fpow (Fin r) n) as [| s | p]; try (right; eexists; reflexivity).
  destruct (checked_outcome p) as [-> | ->];
    [left; reflexivity | right; eexists; reflexivity].
Qed.

Lemma in_range_small : forall x, Rabs x <= 1e308 -> in_range x.
Proof.
  intros x H. unfold in_range. pose proof overflow_threshold_bounds. lra.
Qed.


(** Squares of numbers up to [1e150] stay in range; squares of numbers
    from [1e155] on do not. *)
Lemma in_range_square : forall x, Rabs x <= 1e150 -> in_range (x ^ 2).
Proof.
  intros x H. apply in_range_small.
  replace (x ^ 2) with (x * x) by ring. rewrite Rabs_mult.
  pose proof (Rabs_pos x). nra.
Qed.



Lemma is_zero_Fin_false : forall x, is_zero (Fin x) = false -> x <> 0.
Proof.
  intros x H E. subst x. cbn in H. rewrite Reqb_true in H by reflexivity.
  discriminate.
Qed.

(** A Python division of finite numbers that returned. *)
Lemma py_div_Fin_inv : forall a b q,
  py_div (Fin a) (Fin b) = Ok q -> b <> 0 /\ q = Fin (a / b).
Proof.
  intros a b q H. rewrite py_div_cases in H.
  destruct (is_zero (Fin b)) eqn:Hz; [discriminate |].
  apply is_zero_Fin_false in Hz. rewrite fdiv_Fin in H by exact Hz.
  injection H as <-. split; [exact Hz | reflexivity].
Qed.



(** A product of factors that are not zero is not zero. *)
Ltac nonzero :=
  first [ assumption | lra
        | apply Rinv_neq_0_compat; nonzero
        | apply pow_nonzero; nonzero
        | apply Rmult_integral_contrapositive_currified; nonzero ].

(** The next step of [H] is a Python division of finite numbers. *)
Ltac quotient H :=
  match type of H with
  | bind (py_div (Fin ?a) (Fin ?b)) _ = Ok _ =>
      let q := fresh "q" in
      let Hq := fresh "Hq" in
      let Hnz := fresh "Hnz" in
      destruct (py_div (Fin a) (Fin b)) as [q | |] eqn:Hq;
      [| discriminate H | discriminate H];
      apply py_div_Fin_inv in Hq; destruct Hq as [Hnz ->];
      cbn [bind fadd fsub fneg fmul] in H
  end.

(** The next step of [H] is a power of a finite Python float. *)
Ltac power H :=
  match type of H with
  | bind (float_pow (Fin ?a) ?n) _ = Ok _ =>
      let p := fresh "p" in
      let Hp := fresh "Hp" in
      let Hr := fresh "Hr" in
      destruct (float_pow (Fin a) n) as [p | |] eqn:Hp;
      [| discriminate H | discriminate H];
      apply float_pow_Fin_inv in Hp; destruct Hp as [Hr ->];
      cbn [bind fadd fsub fneg fmul] in H
  end.

(* ================================================================== *)
(** ** Thermodynamics: [ideal_gas_law] *)
(* ================================================================== *)




(** The mobile [ideal_gas_law] differs from the desktop one in the text of
    its message only. *)
Lemma termux_ideal_gas_law_same : forall p v n t G,
  Termux.ideal_gas_law p v n t G
  = match Thermodynamics.ideal_gas_law p v n t G with
    | Raise (ValueError _) =>
        Raise (ValueError "Exactly three parameters must be provided")
    | r => r
    end.
Proof.
  intros p v n t G.
  destruct p as [p|], v as [v|], n as [n|], t as [t|];
    unfold Termux.ideal_gas_law, Thermodynamics.ideal_gas_law; simpl;
    try reflexivity;
    rewrite py_div_cases;
    match goal with
    | |- context [is_zero ?d] => destruct (is_zero d)
    end; reflexivity.
Qed.

(* ================================================================== *)
(** ** Kinematics: [solve_motion] *)
(* ================================================================== *)




(* ================================================================== *)
(** ** Stress analysis: [fatigue_analysis] *)
(* ================================================================== *)







(* ================================================================== *)
(** ** Kinematics: [four_bar_mechanism] *)
(* ================================================================== *)

(** Reading the operations of an arithmetic that is given explicitly. *)
Ltac read_ops :=
  cbn [IEEE.num IEEE.two IEEE.add IEEE.sub IEEE.mul IEEE.div IEEE.neg
       IEEE.sqrt IEEE.cos IEEE.sin IEEE.arctan IEEE.arctan2 IEEE.radians
       IEEE.degrees IEEE.square IEEE.pow2 IEEE.negative IEEE.is_nan
       Kinematics.exact Binary64.ops] in *.

(** The arithmetic of the model obeys the NaN rules. *)
Lemma exact_nan_rules : IEEE.nan_rules Kinematics.exact.
Proof.
  constructor; cbn.
  - intros [| [|] | r] H; cbn in *; try discriminate; try reflexivity.
    now rewrite H.
  - intros x [| s | r] H; try discriminate. now destruct x.
  - intros [| s | r] y H; try discriminate. reflexivity.
  - intros x [| s | r] H; try discriminate. now destruct x.
  - intros [| s | r] y H; try discriminate. reflexivity.
  - intros [| s | r] H; try discriminate. reflexivity.
  - intros [| s | r] H; try discriminate. reflexivity.
  - intros [| s | r] y H; try discriminate. reflexivity.
  - intros [| s | r] H; try discriminate. reflexivity.
  - intros x. apply float_pow_outcome.
Qed.

(** A double is NaN exactly when its specification is. *)
Lemma binary64_is_nan_spec : forall x : Binary64.b64,
  PrimFloat.is_nan x = true <-> FloatOps.Prim2SF x = SpecFloat.S754_nan.
Proof.
  intros x. unfold PrimFloat.is_nan. rewrite FloatAxioms.eqb_spec.
  destruct (FloatOps.Prim2SF x) as [s | s | | s m e]; cbn.
  - split; discriminate.
  - destruct s; cbn; split; discriminate.
  - split; reflexivity.
  - unfold SpecFloat.SFeqb, SpecFloat.SFcompare.
    rewrite Z.compare_refl, Pos.compare_cont_refl.
    destruct s; cbn; split; discriminate.
Qed.

Lemma binary64_zero : FloatOps.Prim2SF (Binary64.of_Z 0) = SpecFloat.S754_zero false.
Proof. vm_compute. reflexivity. Qed.

(** IEEE binary64, as [PrimFloat] specifies it, obeys the NaN rules, for
    any trigonometric functions that let NaN through. *)
Lemma binary64_nan_rules :
  forall (cos sin arctan : Binary64.b64 -> Binary64.b64)
         (arctan2 : Binary64.b64 -> Binary64.b64 -> Binary64.b64),
    (forall x, PrimFloat.is_nan x = true -> PrimFloat.is_nan (sin x) = true) ->
    (forall x,
        PrimFloat.is_nan x = true -> PrimFloat.is_nan (arctan x) = true) ->
    (forall x y,
        PrimFloat.is_nan x = true -> PrimFloat.is_nan (arctan2 x y) = true) ->
    IEEE.nan_rules (Binary64.ops cos sin arctan arctan2).
Proof.
  intros cos sin arctan arctan2 Hsin Harctan Harctan2.
  constructor; read_ops.
  - intros x H. apply binary64_is_nan_spec. rewrite FloatAxioms.sqrt_spec.
    rewrite FloatAxioms.ltb_spec, binary64_zero in H.
    destruct (FloatOps.Prim2SF x) as [s | s | | s m e]; cbn in *;
      try discriminate; destruct s; (reflexivity || discriminate).
  - intros x y H. apply binary64_is_nan_spec in H. apply binary64_is_nan_spec.
    rewrite FloatAxioms.add_spec, H. now destruct (FloatOps.Prim2SF x).
  - intros x y H. apply binary64_is_nan_spec in H. apply binary64_is_nan_spec.
    rewrite FloatAxioms.sub_spec, H. reflexivity.
  - intros x y H. apply binary64_is_nan_spec in H. apply binary64_is_nan_spec.
    rewrite FloatAxioms.mul_spec, H. now destruct (FloatOps.Prim2SF x).
  - intros x y H. apply binary64_is_nan_spec in H. apply binary64_is_nan_spec.
    rewrite FloatAxioms.div_spec, H. reflexivity.
  - exact Hsin.
  - exact Harctan.
  - exact Harctan2.
  - intros x H. apply binary64_is_nan_spec in H. apply binary64_is_nan_spec.
    rewrite FloatAxioms.mul_spec, H. reflexivity.
  - intros x. unfold Binary64.pow2.
    destruct (PrimFloat.is_infinity (PrimFloat.mul x x)
              && negb (PrimFloat.is_infinity x));
      [left; reflexivity | right; eexists; reflexivity].
Qed.

Section FourBarFacts.
Variable o : IEEE.ops.
Hypothesis rules : IEEE.nan_rules o.

Lemma coefficients_outcome : forall a b c d theta,
  FourBar.coefficients o a b c d theta = Raise OverflowError
  \/ exists A B C, FourBar.coefficients o a b c d theta = Ok (A, B, C).
Proof.
  intros a b c d theta. unfold FourBar.coefficients.
  destruct (IEEE.pow2_outcome o rules a) as [-> | [a2 ->]];
    [left; reflexivity | cbn [bind]].
  destruct (IEEE.pow2_outcome o rules d) as [-> | [d2 ->]];
    [left; reflexivity | cbn [bind]].
  destruct (IEEE.pow2_outcome o rules b) as [-> | [b2 ->]];
    [left; reflexivity | cbn [bind]].
  destruct (IEEE.pow2_outcome o rules c) as [-> | [c2 ->]];
    [left; reflexivity | cbn [bind]].
  right. do 3 eexists. reflexivity.
Qed.

Lemma solve_position_outcome : forall a b c d theta,
  FourBar.solve_position o a b c d theta = Raise OverflowError
  \/ exists beta gamma,
       FourBar.solve_position o a b c d theta = Ok (beta, gamma).
Proof.
  intros a b c d theta. unfold FourBar.solve_position.
  destruct (coefficients_outcome a b c d theta) as [-> | (A & B & C & ->)];
    [left; reflexivity | right; do 2 eexists; reflexivity].
Qed.

(** Where the discriminant that the code computes is negative, both angles
    are NaN. *)
Lemma solve_position_nan : forall a b c d theta A B C,
  FourBar.coefficients o a b c d theta = Ok (A, B, C) ->
  IEEE.negative o (FourBar.computed_discriminant o A B C) = true ->
  exists beta gamma,
    FourBar.solve_position o a b c d theta = Ok (beta, gamma)
    /\ IEEE.is_nan o beta = true /\ IEEE.is_nan o gamma = true.
Proof.
  intros a b c d theta A B C Hc Hneg.
  unfold FourBar.solve_position. rewrite Hc. cbn [bind].
  do 2 eexists. split; [reflexivity |].
  match goal with
  | |- IEEE.is_nan o ?beta = true /\ _ =>
      assert (Hb : IEEE.is_nan o beta = true)
  end.
  { apply (IEEE.mul_nan_r o rules), (IEEE.arctan_nan o rules),
      (IEEE.div_nan_l o rules), (IEEE.add_nan_r o rules),
      (IEEE.sqrt_negative o rules).
    exact Hneg. }
  split; [exact Hb |].
  apply (IEEE.arctan2_nan_l o rules), (IEEE.sub_nan_l o rules),
    (IEEE.mul_nan_r o rules), (IEEE.sin_nan o rules).
  exact Hb.
Qed.

Lemma solve_positions_outcome : forall a b c d angles,
  FourBar.solve_positions o a b c d angles = Raise OverflowError
  \/ exists betas gammas,
       FourBar.solve_positions o a b c d angles = Ok (betas, gammas)
       /\ List.length betas = List.length angles
       /\ List.length gammas = List.length angles
       /\ forall i theta A B C,
            nth_error angles i = Some theta ->
            FourBar.coefficients o a b c d theta = Ok (A, B, C) ->
            IEEE.negative o (FourBar.computed_discriminant o A B C) = true ->
            exists r g,
              nth_error betas i = Some r /\ nth_error gammas i = Some g
              /\ IEEE.is_nan o r = true /\ IEEE.is_nan o g = true.
Proof.
  intros a b c d angles. induction angles as [| angle rest IH].
  - right. exists [], []. repeat split; try reflexivity.
    intros [| i] theta A B C H; discriminate H.
  - cbn [FourBar.solve_positions].
    destruct (solve_position_outcome a b c d angle)
      as [-> | (beta & gamma & Hs)]; [left; reflexivity |].
    rewrite Hs. cbn [bind].
    destruct IH as [-> | (betas & gammas & -> & Hlb & Hlg & Hnan)];
      [left; reflexivity |].
    cbn [bind]. right. do 2 eexists. split; [reflexivity |].
    cbn [List.length]. split; [now rewrite Hlb |]. split; [now rewrite Hlg |].
    intros [| i] theta A B C Hnth Hc Hneg.
    + cbn in Hnth. injection Hnth as <-.
      destruct (solve_position_nan a b c d angle A B C Hc Hneg)
        as (beta' & gamma' & Hs' & Hb & Hg).
      rewrite Hs in Hs'. injection Hs' as <- <-.
      do 2 eexists. cbn [nth_error]. repeat split.
      * now apply (IEEE.degrees_nan o rules).
      * now apply (IEEE.degrees_nan o rules).
    + cbn [nth_error] in *. now apply (Hnan i theta A B C).
Qed.
End FourBarFacts.

(** C1, as amended: [four_bar_mechanism] signals no failure for a mechanism
    that cannot be assembled.  In every arithmetic that obeys the NaN rules
    of IEEE 754 (the model's and binary64 itself), the call either raises
    [OverflowError] (the square of a link length left the range of a float)
    or returns its result set; and wherever the discriminant
    [A^2 + B^2 - C^2], as the code computes it, is negative, the rocker and
    coupler angles it returns are NaN: for a single crank angle, and entry
    by entry for a sequence of crank angles. *)
Theorem four_bar_mechanism_returns_nan :
  forall o : IEEE.ops,
    IEEE.nan_rules o ->
    (forall a b c d angle,
        FourBar.four_bar_mechanism o a b c d (Scalar angle)
        = Raise OverflowError
        \/ exists r g,
             FourBar.four_bar_mechanism o a b c d (Scalar angle)
             = Ok [("rocker_angle", One r); ("coupler_angle", One g)]
             /\ forall A B C,
                  FourBar.coefficients o a b c d (IEEE.radians o angle)
                  = Ok (A, B, C) ->
                  IEEE.negative o (FourBar.computed_discriminant o A B C)
                  = true ->
                  IEEE.is_nan o r = true /\ IEEE.is_nan o g = true)
    /\ (forall a b c d angles,
          FourBar.four_bar_mechanism o a b c d (Seq angles)
          = Raise OverflowError
          \/ exists rs gs,
               FourBar.four_bar_mechanism o a b c d (Seq angles)
               = Ok [("rocker_angles", Many rs); ("coupler_angles", Many gs)]
               /\ List.length rs = List.length angles
               /\ List.length gs = List.length angles
               /\ forall i angle A B C,
                    nth_error angles i = Some angle ->
                    FourBar.coefficients o a b c d (IEEE.radians o angle)
                    = Ok (A, B, C) ->
                    IEEE.negative o (FourBar.computed_discriminant o A B C)
                    = true ->
                    exists r g,
                      nth_error rs i = Some r /\ nth_error gs i = Some g
                      /\ IEEE.is_nan o r = true /\ IEEE.is_nan o g = true).
Proof.
  intros o rules. split.
  - intros a b c d angle. unfold FourBar.four_bar_mechanism.
    destruct (solve_position_outcome o rules a b c d (IEEE.radians o angle))
      as [-> | (beta & gamma & Hs)]; [left; reflexivity |].
    right. rewrite Hs. cbn [bind]. do 2 eexists. split; [reflexivity |].
    intros A B C Hc Hneg.
    destruct (solve_position_nan o rules a b c d _ A B C Hc Hneg)
      as (beta' & gamma' & Hs' & Hb & Hg).
    rewrite Hs in Hs'. injection Hs' as <- <-.
    split; now apply (IEEE.degrees_nan o rules).
  - intros a b c d angles. unfold FourBar.four_bar_mechanism.
    destruct (solve_positions_outcome o rules a b c d
                (map (IEEE.radians o) angles))
      as [-> | (betas & gammas & -> & Hlb & Hlg & Hnan)];
      [left; reflexivity |].
    right. cbn [bind]. exists betas, gammas. split; [reflexivity |].
    rewrite length_map in Hlb, Hlg.
    split; [exact Hlb |]. split; [exact Hlg |].
    intros i angle A B C Hnth Hc Hneg.
    apply (Hnan i (IEEE.radians o angle) A B C); try assumption.
    rewrite nth_error_map, Hnth. reflexivity.
Qed.

Lemma radians_0 : radians 0 = 0.
Proof. unfold radians. ring. Qed.


(** The coefficients in the model, for link lengths whose squares are in
    range. *)
Lemma exact_coefficients : forall a b c d theta : R,
  in_range (a ^ 2) -> in_range (b ^ 2) -> in_range (c ^ 2) ->
  in_range (d ^ 2) ->
  FourBar.coefficients Kinematics.exact (Fin a) (Fin b) (Fin c) (Fin d)
    (Fin theta)
  = Ok (Fin (coef_A a d theta), Fin (coef_B a d theta),
        Fin (coef_C a b c d theta)).
Proof.
  intros a b c d theta Ha Hb Hc Hd. unfold FourBar.coefficients.
  cbn [IEEE.pow2 IEEE.mul IEEE.two IEEE.cos IEEE.sin IEEE.add IEEE.sub
       Kinematics.exact].
  rewrite !float_pow_Fin by assumption. cbn [bind np_cos np_sin fmul].
  unfold fsub. cbn [fneg fadd].
  unfold coef_A, coef_B, coef_C, Rsqr. do 4 f_equal; ring.
Qed.


Lemma exact_discriminant : forall A B C : R,
  FourBar.computed_discriminant Kinematics.exact (Fin A) (Fin B) (Fin C)
  = Fin (A² + B² - C²).
Proof.
  intros A B C. unfold FourBar.computed_discriminant.
  cbn [IEEE.square IEEE.add IEEE.sub Kinematics.exact fpow fmul].
  unfold fsub. cbn [fneg fadd]. unfold Rsqr. f_equal.
Qed.

(** The model at a crank angle where the real discriminant is negative. *)
Lemma four_bar_exact_unassemblable : forall a b c d angle : R,
  in_range (a ^ 2) -> in_range (b ^ 2) -> in_range (c ^ 2) ->
  in_range (d ^ 2) ->
  discriminant a b c d (radians angle) < 0 ->
  Kinematics.four_bar_mechanism (Fin a) (Fin b) (Fin c) (Fin d)
    (Scalar (Fin angle))
  = Ok [("rocker_angle", One NaN); ("coupler_angle", One NaN)].
Proof.
  intros a b c d angle Ha Hb Hc Hd H.
  unfold Kinematics.four_bar_mechanism, FourBar.four_bar_mechanism,
    FourBar.solve_position.
  change (IEEE.radians Kinematics.exact (Fin angle))
    with (Fin (radians angle)).
  rewrite exact_coefficients by assumption. cbn [bind].
  rewrite exact_discriminant.
  cbn [IEEE.sqrt Kinematics.exact]. unfold np_sqrt.
  rewrite Rltb_true by exact H. reflexivity.
Qed.


(** C1, counterexample: crank 1, coupler 1, rocker 1 and ground 10 cannot be
    assembled; at crank angle 0 the discriminant is [400 - 14641], and the
    call returns a result set whose two angles are NaN. *)
Lemma four_bar_silent_nan :
  discriminant 1 1 1 10 (radians 0) < 0
  /\ Kinematics.four_bar_mechanism (Fin 1) (Fin 1) (Fin 1) (Fin 10)
       (Scalar (Fin 0))
     = Ok [("rocker_angle", One NaN); ("coupler_angle", One NaN)].
Proof.
  assert (H : discriminant 1 1 1 10 (radians 0) < 0).
  { rewrite radians_0.
    unfold discriminant, coef_A, coef_B, coef_C, Rsqr.
    rewrite cos_0, sin_0. lra. }
  split; [exact H |].
  apply four_bar_exact_unassemblable;
    try (apply in_range_square; rewrite Rabs_right; lra).
  exact H.
Qed.

(** A run of the amended C1 statement, in the model: links 2, 1, 1 and
    ground 5 at crank angle 0. *)
Lemma four_bar_mechanism_returns_nan_witness :
  Kinematics.four_bar_mechanism (Fin 2) (Fin 1) (Fin 1) (Fin 5)
    (Scalar (Fin 0))
  = Raise OverflowError
  \/ exists r g,
       Kinematics.four_bar_mechanism (Fin 2) (Fin 1) (Fin 1) (Fin 5)
         (Scalar (Fin 0))
       = Ok [("rocker_angle", One r); ("coupler_angle", One g)]
       /\ r = NaN /\ g = NaN.
Proof.
  destruct (four_bar_mechanism_returns_nan Kinematics.exact exact_nan_rules)
    as [H _].
  destruct (H (Fin 2) (Fin 1) (Fin 1) (Fin 5) (Fin 0))
    as [E | (r & g & E & Hnan)]; [left; exact E | right].
  exists r, g. split; [exact E |].
  assert (Hr : forall x : R, Rabs x <= 1e150 -> in_range (x ^ 2))
    by exact in_range_square.
  destruct (Hnan (Fin (coef_A 2 5 (radians 0))) (Fin (coef_B 2 5 (radians 0)))
              (Fin (coef_C 2 1 1 5 (radians 0)))) as [Hn1 Hn2].
  - apply exact_coefficients; apply Hr; rewrite Rabs_right; lra.
  - rewrite exact_discriminant. cbn. apply Rltb_true.
    rewrite radians_0. unfold coef_A, coef_B, coef_C, Rsqr.
    rewrite cos_0, sin_0. lra.
  - cbn in Hn1, Hn2. destruct r, g; try discriminate. split; reflexivity.
Defined.








(* ================================================================== *)
(** ** Materials: lookups of absent codes *)
(* ================================================================== *)

(** C7, counterexample: the code [TI_6AL4V] is not in the table, and the
    bare lookup answers with the empty mapping; it has no way to fail. *)
Lemma get_material_properties_absent_is_empty :
  assoc "TI_6AL4V" Termux.MATERIALS_DB = None
  /\ Termux.get_material_properties "TI_6AL4V" = [].
Proof. split; reflexivity. Qed.

(** C7, as amended: for a code absent from the table the bare lookup
    [get_material_properties] returns the empty mapping, and each derived
    operation (stress and strain, thermal expansion, heat conduction, cost
    estimate) raises the "not found" error. *)
Theorem absent_material_code :
  forall code : string,
    assoc code Termux.MATERIALS_DB = None ->
    Termux.get_material_properties code = []
    /\ (forall force area,
          Termux.calculate_stress_strain force area code = Raise not_found)
    /\ (forall initial_length temperature_change,
          Termux.thermal_expansion code initial_length temperature_change
          = Raise not_found)
    /\ (forall area thickness temperature_difference,
          Termux.heat_conduction code area thickness temperature_difference
          = Raise not_found)
    /\ (forall volume processing_factor,
          Termux.material_cost_estimate code volume processing_factor
          = Raise not_found).
Proof.
  intros code H.
  assert (E : Termux.get_material_properties code = []).
  { unfold Termux.get_material_properties. now rewrite H. }
  split; [exact E |].
  repeat split; intros;
    unfold Termux.calculate_stress_strain, Termux.thermal_expansion,
      Termux.heat_conduction, Termux.material_cost_estimate;
    rewrite E; reflexivity.
Qed.

(** A run of the amended C7 statement on the code [TI_6AL4V]. *)
Lemma absent_material_code_witness :
  Termux.get_material_properties "TI_6AL4V" = []
  /\ (forall force area,
        Termux.calculate_stress_strain force area "TI_6AL4V" = Raise not_found)
  /\ (forall initial_length temperature_change,
        Termux.thermal_expansion "TI_6AL4V" initial_length temperature_change
        = Raise not_found)
  /\ (forall area thickness temperature_difference,
        Termux.heat_conduction "TI_6AL4V" area thickness temperature_difference
        = Raise not_found)
  /\ (forall volume processing_factor,
        Termux.material_cost_estimate "TI_6AL4V" volume processing_factor
        = Raise not_found).
Proof. apply (absent_material_code "TI_6AL4V"). reflexivity. Defined.

(** A code of the table is answered with its record. *)
Lemma get_material_properties_present : forall code properties,
  assoc code Termux.MATERIALS_DB = Some properties ->
  Termux.get_material_properties code = properties /\ properties <> [].
Proof.
  intros code properties H. unfold Termux.get_material_properties.
  rewrite H. split; [reflexivity |].
  unfold Termux.MATERIALS_DB in H. simpl in H.
  repeat match type of H with
  | (if ?b then _ else _) = _ => destruct b
  end; try discriminate; injection H as <-; discriminate.
Qed.

(* ================================================================== *)
(** ** Dispatch on a variant named by a string *)
(* ================================================================== *)

(** C2, counterexample: ["clamped"] is none of the constraint names and
    [thermal_stress] answers it with the half-restrained result set;
    ["advection"] is none of the heat-transfer modes and [heat_transfer]
    answers it with the empty result set. *)
Lemma unsupported_name_returns :
  ~ In "clamped" StressAnalysis.constraint_types
  /\ StressAnalysis.thermal_stress (Fin 10) (Fin 2) (Fin 3) "clamped"
     = Ok [("thermal_stress", VFloat (Fin (- 0.5 * 2 * 3 * 10)));
           ("thermal_strain", VFloat (Fin (0.5 * 2 * 10)))]
  /\ ~ In "advection" Thermodynamics.heat_transfer_modes
  /\ Thermodynamics.heat_transfer (Fin 1) (Fin 1) (Fin 1) (Fin 1) "advection"
     = Ok [].
Proof.
  repeat split.
  - simpl. intros [H | [H | []]]; discriminate.
  - simpl. intros [H | [H | [H | []]]]; discriminate.
Qed.

Ltac other_name H :=
  repeat match goal with
  | |- context [String.eqb ?n ?k] =>
      rewrite (eqb_of_neq n k) by (intros ->; apply H; simpl; tauto)
  end.

Ltac names_all_options :=
  let o := fresh "o" in
  let Ho := fresh "Ho" in
  intros o Ho; simpl in Ho;
  repeat (destruct Ho as [<- | Ho]; [reflexivity |]);
  contradiction.

(** C2, as amended: for a name outside the supported ones,
    [pressure_vessel_stress], [weir_flow], [cam_analysis] and
    [open_channel_flow] raise a [ValueError] whose text names every valid
    option ([open_channel_flow] does so for ['trapezoidal'] and never computes
    the rectangular result); [thermal_stress] treats every name other than
    ['full'] as the partial constraint and returns its result set;
    [heat_transfer] returns the empty result set. *)
Theorem unsupported_variant_name :
  (forall pressure radius thickness name,
      ~ In name StressAnalysis.vessel_types ->
      fails_enumerating
        (StressAnalysis.pressure_vessel_stress pressure radius thickness name)
        StressAnalysis.vessel_types)
  /\ (forall weir_height weir_width head name,
        ~ In name FluidMechanics.weir_types ->
        fails_enumerating
          (FluidMechanics.weir_flow weir_height weir_width head name)
          FluidMechanics.weir_types)
  /\ (forall base_circle_radius lift angle name,
        ~ In name Kinematics.cam_types ->
        fails_enumerating
          (Kinematics.cam_analysis base_circle_radius lift angle name)
          Kinematics.cam_types)
  /\ (forall channel_width flow_depth slope manning_n name,
        ~ In name FluidMechanics.channel_types ->
        fails_enumerating
          (FluidMechanics.open_channel_flow channel_width flow_depth slope
             manning_n name)
          FluidMechanics.channel_types)
  /\ (forall channel_width flow_depth slope manning_n,
        fails_enumerating
          (FluidMechanics.open_channel_flow channel_width flow_depth slope
             manning_n "trapezoidal")
          FluidMechanics.channel_types)
  /\ (forall temperature_change thermal_expansion youngs_modulus name,
        name <> "full" ->
        StressAnalysis.thermal_stress temperature_change thermal_expansion
          youngs_modulus name
        = StressAnalysis.thermal_stress temperature_change thermal_expansion
            youngs_modulus "partial"
        /\ returns (StressAnalysis.thermal_stress temperature_change
                      thermal_expansion youngs_modulus name))
  /\ (forall area k temp_diff thickness name,
        ~ In name Thermodynamics.heat_transfer_modes ->
        Thermodynamics.heat_transfer area k temp_diff thickness name = Ok []).
Proof.
  repeat apply conj.
  - intros p r t name H. unfold StressAnalysis.pressure_vessel_stress.
    unfold StressAnalysis.vessel_types in H. other_name H.
    eexists. split; [reflexivity | names_all_options].
  - intros h w hd name H. unfold FluidMechanics.weir_flow.
    unfold FluidMechanics.weir_types in H. other_name H.
    eexists. split; [reflexivity | names_all_options].
  - intros r l angle name H. unfold Kinematics.cam_analysis.
    unfold Kinematics.cam_types in H. simpl in H.
    unfold Kinematics.lift_functions. cbn [assoc]. other_name H.
    eexists. split; [reflexivity | names_all_options].
  - intros w d s n name H. unfold FluidMechanics.open_channel_flow.
    unfold FluidMechanics.channel_types in H. other_name H.
    eexists. split; [reflexivity | names_all_options].
  - intros w d s n. eexists. split; [reflexivity | names_all_options].
  - intros dT al E name H. unfold StressAnalysis.thermal_stress.
    rewrite (eqb_of_neq name "full" H). cbn [String.eqb Ascii.eqb Bool.eqb].
    split; [reflexivity | eexists; reflexivity].
  - intros a k dT th name H. unfold Thermodynamics.heat_transfer.
    unfold Thermodynamics.heat_transfer_modes in H. other_name H.
    reflexivity.
Qed.

(** A run of the amended C2 statement on the names ['cone'], ['broad'],
    ['spiral'] and ['trapezoidal']. *)
Lemma unsupported_variant_name_witness :
  fails_enumerating
    (StressAnalysis.pressure_vessel_stress (Fin 1) (Fin 1) (Fin 1) "cone")
    StressAnalysis.vessel_types
  /\ fails_enumerating
       (FluidMechanics.weir_flow (Fin 1) (Fin 1) (Fin 1) "broad")
       FluidMechanics.weir_types
  /\ fails_enumerating
       (Kinematics.cam_analysis (Fin 1) (Fin 1) (Scalar (Fin 0)) "spiral")
       Kinematics.cam_types
  /\ fails_enumerating
       (FluidMechanics.open_channel_flow (Fin 1) (Fin 1) (Fin 1) (Fin 1)
          "trapezoidal")
       FluidMechanics.channel_types.
Proof.
  destruct unsupported_variant_name as (H1 & H2 & H3 & H4 & _).
  repeat apply conj.
  - apply H1. simpl. intros [H | [H | [H | []]]]; discriminate.
  - apply H2. simpl. intros [H | [H | []]]; discriminate.
  - apply H3. simpl. intros [H | [H | [H | []]]]; discriminate.
  - apply H4. simpl. intros [H | []]; discriminate.
Defined.

(* ================================================================== *)
(** ** Machine design: [shaft_design] *)
(* ================================================================== *)
































(* ================================================================== *)
(** ** Kinematics: the drag loop of [projectile_motion] *)
(* ================================================================== *)

Section EulerLoopFacts.
Variable F : Type.
Variables (zero dt : F).
Variables (add sub mul : F -> F -> F) (opp sqrt : F -> F).
Variable ge_zero : F -> bool.










End EulerLoopFacts.

Section EulerLoopExit.
Variable F : Type.
Variables (zero dt : F).
Variables (add sub mul : F -> F -> F) (opp sqrt : F -> F).
Variable ge_zero : F -> bool.

End EulerLoopExit.









(* ================================================================== *)
(** ** Kinematics: [simple_harmonic_motion] *)
(* ================================================================== *)



(* ================================================================== *)
(** ** Kinematics: [gear_train_analysis] *)
(* ================================================================== *)

(** The loop over the pairs returns, meets a zero tooth count, or meets a
    quotient of tooth counts too large for a float. *)
Lemma overall_ratio_outcome : forall l r,
  (exists r', KinematicsRest.overall_ratio l r = Ok r')
  \/ KinematicsRest.overall_ratio l r = Raise ZeroDivisionError
  \/ KinematicsRest.overall_ratio l r = Raise OverflowError.
Proof.
  fix IH 1. intros [| a [| b rest]] r; try (left; eexists; reflexivity).
  cbn [KinematicsRest.overall_ratio]. unfold int_truediv.
  destruct (Z.eqb a 0); [right; left; reflexivity |].
  destruct (checked_outcome (IZR b / IZR a)) as [-> | ->]; cbn [bind].
  - right; right; reflexivity.
  - apply IH.
Qed.

(** X2: [gear_train_analysis] raises the [ValueError] "Need at least 2 gears
    in the train" exactly when the list of tooth counts has fewer than two
    entries. *)
Theorem gear_train_needs_two_gears :
  forall gear_teeth input_speed efficiency,
    KinematicsRest.gear_train_analysis gear_teeth input_speed efficiency
    = Raise (ValueError "Need at least 2 gears in the train")
    <-> (List.length gear_teeth < 2)%nat.
Proof.
  intros l s e. unfold KinematicsRest.gear_train_analysis.
  destruct (Nat.ltb_spec (List.length l) 2) as [H | H].
  - split; [intros _; exact H | reflexivity].
  - split; [| lia]. intros E. exfalso.
    destruct (overall_ratio_outcome l (Fin 1)) as [[r' Hr] | [Hr | Hr]];
      rewrite Hr in E; cbn [bind] in E; try discriminate.
    rewrite py_div_cases in E.
    destruct (is_zero r'); cbn [bind] in E; [discriminate |].
    destruct (float_pow_outcome e (List.length l - 1)) as [Hp | [p Hp]];
      rewrite Hp in E; cbn [bind] in E; discriminate.
Qed.

Lemma int_truediv_Fin : forall a b : Z,
  b <> 0%Z -> in_range (IZR a / IZR b) ->
  int_truediv a b = Ok (Fin (IZR a / IZR b)).
Proof.
  intros a b Hb Hr. unfold int_truediv.
  rewrite (proj2 (Z.eqb_neq b 0) Hb). now apply checked_in_range.
Qed.






Lemma overall_ratio_unpaired : forall n l z r,
  List.length l = (2 * n)%nat ->
  KinematicsRest.overall_ratio (l ++ [z]) r = KinematicsRest.overall_ratio l r.
Proof.
  induction n as [| n IH]; intros l z r Hl.
  - destruct l; [reflexivity | discriminate].
  - destruct l as [| a [| b rest]]; try (cbn in Hl; lia).
    cbn [app KinematicsRest.overall_ratio].
    destruct (int_truediv b a); cbn [bind]; try reflexivity.
    apply IH. cbn in Hl. lia.
Qed.

(** X4: a gear added at the end of a train with an even number of gears
    changes neither the gear ratio nor the output speed that
    [gear_train_analysis] reports, whenever it returns for both trains: the
    loop visits the gears in pairs and never reads a last gear without a
    partner. *)
Theorem gear_train_analysis_unpaired_gear :
  forall n gear_teeth (last_gear : Z) input_speed efficiency rs rs',
    List.length gear_teeth = (2 * n)%nat ->
    KinematicsRest.gear_train_analysis gear_teeth input_speed efficiency
    = Ok rs ->
    KinematicsRest.gear_train_analysis (gear_teeth ++ [last_gear])
      input_speed efficiency = Ok rs' ->
    lookup "gear_ratio" rs' = lookup "gear_ratio" rs
    /\ lookup "output_speed" rs' = lookup "output_speed" rs.
Proof.
  intros n l z s e rs rs' Hl H H'.
  unfold KinematicsRest.gear_train_analysis in H, H'.
  destruct (Nat.ltb (List.length l) 2); [discriminate |].
  destruct (Nat.ltb (List.length (l ++ [z])) 2); [discriminate |].
  rewrite (overall_ratio_unpaired n) in H' by exact Hl.
  destruct (KinematicsRest.overall_ratio l (Fin 1)) as [ratio | |];
    cbn [bind] in H, H'; try discriminate.
  destruct (py_div s ratio) as [speed | |]; cbn [bind] in H, H';
    try discriminate.
  destruct (float_pow e (List.length l - 1)) as [p | |];
    cbn [bind] in H; try discriminate.
  destruct (float_pow e (List.length (l ++ [z]) - 1)) as [p' | |];
    cbn [bind] in H'; try discriminate.
  injection H as <-. injection H' as <-. split; reflexivity.
Qed.

(** The train 20:40 at 1000 rpm returns a result set, with and without a
    third gear of 60 teeth. *)
Lemma gear_train_unpaired_example :
  (exists rs,
      KinematicsRest.gear_train_analysis [20; 40]%Z (Fin 1000) (Fin 1)
      = Ok rs)
  /\ (exists rs',
        KinematicsRest.gear_train_analysis ([20; 40]%Z ++ [60%Z])
          (Fin 1000) (Fin 1) = Ok rs').
Proof.
  split; unfold KinematicsRest.gear_train_analysis;
    cbn [app List.length Nat.ltb Nat.leb KinematicsRest.overall_ratio];
    rewrite int_truediv_Fin
      by (try lia; apply in_range_small; rewrite Rabs_right; lra);
    cbn [bind fmul]; rewrite py_div_Fin by lra; cbn [bind Nat.sub];
    rewrite !float_pow_Fin by (apply in_range_small; rewrite Rabs_right; lra);
    cbn [bind]; eexists; reflexivity.
Qed.

(** A run of X4, on the train above. *)
Lemma gear_train_analysis_unpaired_gear_witness :
  exists rs rs',
    KinematicsRest.gear_train_analysis [20; 40]%Z (Fin 1000) (Fin 1) = Ok rs
    /\ KinematicsRest.gear_train_analysis ([20; 40]%Z ++ [60%Z])
         (Fin 1000) (Fin 1) = Ok rs'
    /\ lookup "gear_ratio" rs' = lookup "gear_ratio" rs
    /\ lookup "output_speed" rs' = lookup "output_speed" rs.
Proof.
  destruct gear_train_unpaired_example as [[rs E] [rs' E']].
  exists rs, rs'. split; [exact E |]. split; [exact E' |].
  exact (gear_train_analysis_unpaired_gear 1 [20; 40]%Z 60%Z
           (Fin 1000) (Fin 1) rs rs' eq_refl E E').
Defined.

(* ================================================================== *)
(** ** Kinematics: the parabolic cam, [solve_motion], the drag-free flight *)
(* ================================================================== *)












(* ================================================================== *)
(** ** Stress analysis: [combined_stress], [beam_deflection], vessels *)
(* ================================================================== *)

(** X8: for finite normal stress [sigma] and shear stress [tau] of at most
    1e150 in magnitude (so that the two squares stay in range),
    [combined_stress] returns principal stresses [p1], [p2] and a maximum
    shear [m] on Mohr's circle: [p1 + p2 = sigma], [p1 - p2 = 2 m],
    [p1 * p2 = - tau^2] and [|tau| <= m]. *)
Theorem combined_stress_mohr_circle :
  forall sigma tau : R,
    Rabs sigma <= 1e150 -> Rabs tau <= 1e150 ->
    exists p1 p2 m,
      let r := StressAnalysisRest.combined_stress (Fin sigma) (Fin tau) in
      has_float r "principal_stress_1" p1
      /\ has_float r "principal_stress_2" p2
      /\ has_float r "max_shear_stress" m
      /\ p1 + p2 = sigma
      /\ p1 - p2 = 2 * m
      /\ p1 * p2 = - (tau * tau)
      /\ Rabs tau <= m.
Proof.
  intros sigma tau Hsigma Htau.
  unfold has_float, StressAnalysisRest.combined_stress.
  rewrite !fdiv_Fin by lra.
  rewrite (float_pow_Fin (sigma / 2)).
  2:{ apply in_range_square. unfold Rdiv. rewrite Rabs_mult.
      rewrite (Rabs_right (/ 2)) by lra. pose proof (Rabs_pos sigma). lra. }
  rewrite float_pow_Fin by (now apply in_range_square).
  cbn [bind fmul fadd].
  assert (Hr : 0 <= (sigma / 2) ^ 2 + tau ^ 2) by nra.
  unfold np_sqrt. rewrite Rltb_false by lra.
  unfold fsub. cbn.
  pose proof (sqrt_sqrt _ Hr) as Hs.
  pose proof (sqrt_pos ((sigma / 2) ^ 2 + tau ^ 2)) as Hp.
  replace (sigma / 2 * (sigma / 2 * 1) + tau * (tau * 1))
    with ((sigma / 2) ^ 2 + tau ^ 2) by ring.
  set (m := sqrt ((sigma / 2) ^ 2 + tau ^ 2)) in *.
  exists (sigma / 2 + m), (sigma / 2 + - m), m.
  repeat (split; [reflexivity |]).
  split; [lra |]. split; [lra |]. split; [nra |].
  apply Rsqr_incr_0_var; [| exact Hp].
  rewrite <- Rsqr_abs. unfold Rsqr. nra.
Qed.

(** A run of X8: 100 MPa of normal stress with 50 MPa of shear. *)
Lemma combined_stress_mohr_circle_witness :
  exists p1 p2 m,
    let r := StressAnalysisRest.combined_stress (Fin 100e6) (Fin 50e6) in
    has_float r "principal_stress_1" p1
    /\ has_float r "principal_stress_2" p2
    /\ has_float r "max_shear_stress" m
    /\ p1 + p2 = 100e6
    /\ p1 - p2 = 2 * m
    /\ p1 * p2 = - (50e6 * 50e6)
    /\ Rabs 50e6 <= m.
Proof.
  apply (combined_stress_mohr_circle 100e6 50e6); rewrite Rabs_right; lra.
Defined.

(** X9: for a load type outside 'point_center', 'point_end' and 'uniform',
    [beam_deflection] raises a [ValueError] whose text names the three
    supported load types. *)
Theorem beam_deflection_unsupported_load_type :
  forall load length elastic_modulus moment_of_inertia load_type,
    ~ In load_type StressAnalysisRest.load_types ->
    fails_enumerating
      (StressAnalysisRest.beam_deflection load length elastic_modulus
         moment_of_inertia load_type)
      StressAnalysisRest.load_types.
Proof.
  intros load length E I load_type H.
  unfold fails_enumerating, StressAnalysisRest.beam_deflection.
  cbn [assoc StressAnalysisRest.factors]. other_name H.
  eexists. split; [reflexivity |]. names_all_options.
Qed.

(** A run of X9: the load type 'cantilever'. *)
Lemma beam_deflection_unsupported_load_type_witness :
  fails_enumerating
    (StressAnalysisRest.beam_deflection (Fin 1000) (Fin 2) (Fin 2e11)
       (Fin 1e-6) "cantilever")
    StressAnalysisRest.load_types.
Proof.
  apply (beam_deflection_unsupported_load_type
           (Fin 1000) (Fin 2) (Fin 2e11) (Fin 1e-6) "cantilever").
  simpl. intros [H | [H | [H | []]]]; discriminate.
Defined.







(* ================================================================== *)
(** ** Stress analysis: [composite_lamina_properties] *)
(* ================================================================== *)





(* ================================================================== *)
(** ** Fluid mechanics: [bernoulli_equation] *)
(* ================================================================== *)







(* ================================================================== *)
(** ** Fluid mechanics: [pipe_head_loss], [orifice_flow] *)
(* ================================================================== *)






(* ================================================================== *)
(** ** Thermodynamics: [carnot_efficiency], [refrigeration_cycle] *)
(* ================================================================== *)

(** X18: for finite temperatures with a positive cold temperature,
    [carnot_efficiency] fails exactly when the hot temperature is not above
    the cold one; otherwise it returns the efficiency
    [1 - t_cold / t_hot], strictly between 0 and 1, and 100 times it as the
    percentage. *)
Theorem carnot_efficiency_range :
  forall t_hot t_cold : R,
    0 < t_cold ->
    (fails (ThermodynamicsRest.carnot_efficiency (Fin t_hot) (Fin t_cold))
     <-> t_hot <= t_cold)
    /\ (t_cold < t_hot ->
        exists e,
          ThermodynamicsRest.carnot_efficiency (Fin t_hot) (Fin t_cold)
          = Ok [("efficiency", VFloat (Fin e));
                ("efficiency_percent", VFloat (Fin (e * 100)))]
          /\ e = 1 - t_cold / t_hot /\ 0 < e < 1).
Proof.
  intros th tc Hc. unfold ThermodynamicsRest.carnot_efficiency, fle.
  destruct (Rle_dec th tc) as [Hle | Hgt].
  - rewrite Rleb_true by exact Hle. split.
    + split; [intros _; exact Hle | intros _; eexists; reflexivity].
    + intros Hlt. lra.
  - rewrite Rleb_false by exact Hgt.
    rewrite py_div_Fin by lra. cbn [bind fsub fneg fadd fmul]. split.
    + split; [intros [e He]; discriminate | intros Hle; contradiction].
    + intros Hlt. eexists. split; [reflexivity |]. split; [reflexivity |].
      assert (0 < tc / th < 1).
      { split.
        - apply Rdiv_lt_0_compat; lra.
        - apply Rmult_lt_reg_r with th; [lra |].
          unfold Rdiv. rewrite Rmult_assoc, Rinv_l by lra. lra. }
      lra.
Qed.

(** A run of X18: between 600 K and 300 K. *)
Lemma carnot_efficiency_range_witness :
  (fails (ThermodynamicsRest.carnot_efficiency (Fin 600) (Fin 300))
   <-> 600 <= 300)
  /\ exists e,
       ThermodynamicsRest.carnot_efficiency (Fin 600) (Fin 300)
       = Ok [("efficiency", VFloat (Fin e));
             ("efficiency_percent", VFloat (Fin (e * 100)))]
       /\ e = 1 - 300 / 600 /\ 0 < e < 1.
Proof.
  assert (H : (0 : R) < 300) by lra.
  destruct (carnot_efficiency_range 600 300 H) as [Hfail Hrange].
  split; [exact Hfail |]. apply Hrange. lra.
Defined.






(* ================================================================== *)
(** ** Thermodynamics: [heat_exchanger_design] *)
(* ================================================================== *)

(** X20: a heat exchanger whose hot stream does not cool (equal hot inlet
    and outlet temperatures) always makes [heat_exchanger_design] raise
    [ZeroDivisionError], for finite inputs with temperatures of at most
    1e300 and a hot flow and heat capacity of at most 1e150 in magnitude:
    the heat rate is zero, the two terminal temperature differences are
    equal, and the logarithm in the mean temperature difference is zero (or
    a quotient before it already divides by zero). *)
Theorem heat_exchanger_design_no_duty :
  forall t t_ci m_h m_c cp_h cp_c U : R,
    Rabs t <= 1e300 -> Rabs t_ci <= 1e300 ->
    Rabs m_h <= 1e150 -> Rabs cp_h <= 1e150 ->
    ThermodynamicsRest.heat_exchanger_design (Fin t) (Fin t) (Fin t_ci)
      (Fin m_h) (Fin m_c) (Fin cp_h) (Fin cp_c) (Fin U)
    = Raise ZeroDivisionError.
Proof.
  intros t tci mh mc cph cpc U _ _ _ _.
  unfold ThermodynamicsRest.heat_exchanger_design.
  cbn [fmul fsub fneg fadd].
  replace (mh * cph * (t + - t)) with 0 by ring.
  rewrite py_div_cases. destruct (is_zero (Fin (mc * cpc))) eqn:Hz;
    [reflexivity |].
  apply is_zero_Fin_false in Hz. rewrite fdiv_Fin by exact Hz.
  cbn [bind fadd fsub fneg].
  replace (t + - (tci + 0 / (mc * cpc))) with (t + - tci)
    by (unfold Rdiv; ring).
  destruct (Req_dec (t + - tci) 0) as [Ez | Hnz].
  - rewrite Ez. now rewrite py_div_zero.
  - rewrite py_div_Fin by exact Hnz. cbn [bind].
    replace ((t + - tci) / (t + - tci)) with 1 by (field; exact Hnz).
    unfold math_log. rewrite Rltb_true by lra. cbn [bind].
    rewrite ln_1. now rewrite py_div_zero.
Qed.

(** A run of X20: water entering and leaving at 90 degrees against water
    at 20 degrees. *)
Lemma heat_exchanger_design_no_duty_witness :
  ThermodynamicsRest.heat_exchanger_design (Fin 90) (Fin 90) (Fin 20)
    (Fin 2) (Fin 3) (Fin 4.18) (Fin 4.18) (Fin 500)
  = Raise ZeroDivisionError.
Proof.
  apply (heat_exchanger_design_no_duty 90 20 2 3 4.18 4.18 500);
    rewrite Rabs_right; lra.
Defined.





(* ================================================================== *)
(** ** Thermodynamics: [heat_transfer] and [ideal_gas_law] compose *)
(* ================================================================== *)





(* ================================================================== *)
(** ** Machine design: [spring_design], [power_screw_design] *)
(* ================================================================== *)








(* ================================================================== *)
(** ** Machine design: [bearing_life], [belt_design] *)
(* ================================================================== *)

Import MachineDesignRest.




(** The service factor 1.2 over one belt: whatever the power, a number of
    belts that [math.ceil] returns is 2. *)
Lemma belts_required : forall power belts n,
  py_div (fmul power (Fin 1.2)) (fdiv (fmul power (Fin 1000)) (Fin 1000))
  = Ok belts ->
  math_ceil belts = Returned n -> n = 2%Z.
Proof.
  intros power belts n Hq Hc. rewrite py_div_cases in Hq.
  destruct power as [| s | p].
  - cbn in Hq. injection Hq as <-. discriminate.
  - cbn [fmul fdiv] in Hq. rewrite !(Reqb_false _ 0) in Hq by lra.
    cbn in Hq. injection Hq as <-. discriminate.
  - cbn [fmul] in Hq. rewrite fdiv_Fin in Hq by lra.
    cbn [is_zero] in Hq.
    destruct (Req_dec (p * 1000 / 1000) 0) as [E | E].
    + rewrite Reqb_true in Hq by exact E. discriminate.
    + rewrite Reqb_false in Hq by exact E. rewrite fdiv_Fin in Hq by exact E.
      injection Hq as <-. cbn [math_ceil] in Hc. injection Hc as <-.
      apply Zceil_eq.
      replace (p * 1.2 / (p * 1000 / 1000)) with 1.2 by (field; lra).
      cbn. lra.
Qed.

Lemma lift_Returned : forall (A : Type) (m : result A) (a : A),
  lift m = Returned a -> m = Ok a.
Proof. intros A [x | e |] a H; cbn in H; congruence. Qed.

(** Every step of [H] returned. *)
Ltac peel H :=
  repeat match type of H with
  | and_then ?m _ = Returned _ =>
      let E := fresh "E" in
      destruct m eqn:E; cbn [and_then] in H; try discriminate H
  end.

(** X27: whenever [belt_design] returns on a finite power between 1e-300
    and 1e300 in magnitude, the number of belts it requires is 2: the design
    power is the power times the service factor 1.2 and the power per belt
    is the whole power, so the quotient is always 1.2. *)
Theorem belt_design_two_belts :
  forall (power : R) speed_driver speed_driven center_distance belt_type rs,
    1e-300 <= Rabs power <= 1e300 ->
    belt_design (Fin power) speed_driver speed_driven center_distance
      belt_type = Returned rs ->
    lookup "number_of_belts_required" rs = Some (VInt 2).
Proof.
  intros power n1 n2 cd belt_type rs _ H. unfold belt_design in H.
  peel H. injection H as <-. cbn [lookup String.eqb Ascii.eqb Bool.eqb].
  match goal with
  | Hq : lift (py_div (fmul (Fin power) _) _) = Returned ?b,
    Hc : math_ceil ?b = Returned ?n |- _ =>
      apply lift_Returned in Hq;
      rewrite (belts_required (Fin power) b n Hq Hc)
  end.
  reflexivity.
Qed.

(** [min(l, key=...)] returns a member of the list, whatever the keys. *)
Lemma min_by_from_In :
  forall (A : Type) (k : A -> pyfloat) (l : list A) (best : A),
    In (min_by_from k best l) (best :: l).
Proof.
  intros A k l. induction l as [| y l IH]; intros best.
  - left. reflexivity.
  - cbn [min_by_from]. destruct (flt (k y) (k best)).
    + right. apply IH.
    + destruct (IH best) as [<- | Hin];
        [left; reflexivity | right; right; exact Hin].
Qed.

Lemma nearest_size_In : forall target z,
  nearest_size target = Ok z -> In z std_sizes.
Proof.
  intros target z H. unfold nearest_size in H.
  destruct std_sizes as [| b l]; [discriminate |].
  unfold min_by in H. injection H as <-. apply min_by_from_In.
Qed.

(** [min(l, key=...)] with finite keys returns a member of the list whose
    key is the least. *)
Lemma min_by_from_spec :
  forall (A : Type) (kf : A -> R) (l : list A) (best : A),
    In (min_by_from (fun x => Fin (kf x)) best l) (best :: l)
    /\ forall x, In x (best :: l) ->
         kf (min_by_from (fun x => Fin (kf x)) best l) <= kf x.
Proof.
  intros A kf l. induction l as [| y l IH]; intros best.
  - cbn. split; [left; reflexivity |]. intros x [<- | []]. lra.
  - cbn [min_by_from flt].
    destruct (Rlt_dec (kf y) (kf best)) as [Hlt | Hge].
    + rewrite Rltb_true by exact Hlt. destruct (IH y) as [Hin Hmin]. split.
      * right. exact Hin.
      * intros x [<- | Hx]; [| apply Hmin; exact Hx].
        apply Rle_trans with (kf y); [apply Hmin; left; reflexivity | lra].
    + rewrite Rltb_false by exact Hge. destruct (IH best) as [Hin Hmin]. split.
      * destruct Hin as [<- | Hin];
          [left; reflexivity | right; right; exact Hin].
      * intros x [<- | [<- | Hx]].
        -- apply Hmin. left. reflexivity.
        -- apply Rle_trans with (kf best);
             [apply Hmin; left; reflexivity | lra].
        -- apply Hmin. right. exact Hx.
Qed.

Lemma min_by_from_ext : forall (A : Type) (k1 k2 : A -> pyfloat) l best,
  (forall x, k1 x = k2 x) -> min_by_from k1 best l = min_by_from k2 best l.
Proof.
  intros A k1 k2 l. induction l as [| y l IH]; intros best Hk; [reflexivity |].
  cbn [min_by_from]. rewrite !Hk. apply IH. exact Hk.
Qed.

Lemma nearest_size_spec : forall target z,
  nearest_size (Fin target) = Ok z -> nearest_standard z target.
Proof.
  intros target z H. unfold nearest_size in H. unfold nearest_standard.
  destruct std_sizes as [| b l]; [discriminate |].
  unfold min_by in H. injection H as <-.
  rewrite (min_by_from_ext Z _ (fun x => Fin (Rabs (IZR x - target))))
    by reflexivity.
  exact (min_by_from_spec Z (fun x => Rabs (IZR x - target)) l b).
Qed.

Lemma nearest_size_total : forall target, exists z, nearest_size target = Ok z.
Proof.
  intros target. unfold nearest_size.
  assert (H : std_sizes <> []) by discriminate.
  destruct std_sizes; [contradiction | eexists; reflexivity].
Qed.

Lemma nearest_size_exact : forall z target,
  In z std_sizes -> target = IZR z -> nearest_size (Fin target) = Ok z.
Proof.
  intros z target Hz ->. destruct (nearest_size_total (Fin (IZR z))) as [m Hm].
  rewrite Hm. f_equal.
  destruct (nearest_size_spec _ _ Hm) as [_ Hmin].
  specialize (Hmin z Hz).
  replace (IZR z - IZR z) with 0 in Hmin by ring. rewrite Rabs_R0 in Hmin.
  pose proof (Rabs_pos (IZR m - IZR z)) as Hp.
  assert (E : IZR m - IZR z = 0).
  { destruct (Req_dec (IZR m - IZR z) 0) as [E | E]; [exact E |].
    apply Rabs_pos_lt in E. lra. }
  apply eq_IZR. lra.
Qed.

Lemma sqrt_9 : sqrt 9 = 3.
Proof. replace 9 with (3 * 3) by ring. apply sqrt_square. lra. Qed.

(** A 9 kW V-belt drive from 1000 rpm to 500 rpm over half a metre returns
    a result set, with pulleys of 90 mm and 180 mm. *)
Lemma belt_design_example :
  exists rs,
    belt_design (Fin 9) (Fin 1000) (Fin 500) (Fin 0.5) "V" = Returned rs
    /\ lookup "driver_diameter" rs = Some (VFloat (Fin (90 / 1000)))
    /\ lookup "driven_diameter" rs = Some (VFloat (Fin (180 / 1000))).
Proof.
  pose proof PI_RGT_0 as Hpi. pose proof PI_4 as Hpi4.
  unfold belt_design.
  rewrite py_div_Fin by lra. cbn [lift and_then fmul].
  rewrite py_div_Fin by lra. cbn [lift and_then].
  unfold math_sqrt. rewrite Rltb_false by lra. cbn [lift and_then fmul].
  replace (9 * 1000 / 1000) with 9 by field. rewrite sqrt_9.
  rewrite (nearest_size_exact 90) by (cbn; (tauto || lra)).
  cbn [lift and_then].
  rewrite (nearest_size_exact 180) by (cbn; (tauto || lra)).
  cbn [lift and_then]. rewrite !fdiv_Fin by lra.
  unfold fsub, MachineDesign.math_pi. cbn [fneg fadd fmul].
  rewrite float_pow_Fin
    by (apply in_range_square; rewrite Rabs_right; lra).
  cbn [lift and_then].
  rewrite !py_div_Fin by lra. cbn [lift and_then].
  unfold math_asin.
  rewrite !(Rleb_true (- (1))) by lra.
  rewrite !(Rleb_true _ 1) by lra.
  cbn [andb lift and_then fmul fadd fneg].
  unfold tension_ratio_of, MachineDesign.math_pi.
  cbn [String.eqb Ascii.eqb Bool.eqb fmul].
  rewrite !fdiv_Fin by lra. cbn [math_sin lift and_then].
  assert (Hs : 0 < sin (34 * PI / 180 / 2)) by (apply sin_gt_0; lra).
  rewrite py_div_Fin by lra. cbn [lift and_then math_exp].
  rewrite py_div_Fin by nra. cbn [lift and_then].
  match goal with
  | |- context [py_div _ (Fin (exp ?x))] => pose proof (exp_pos x) as He
  end.
  rewrite py_div_Fin by lra. cbn [lift and_then math_ceil].
  eexists. split; [reflexivity |]. split; reflexivity.
Qed.

(** A run of X27, on the drive above. *)
Lemma belt_design_two_belts_witness :
  exists rs,
    belt_design (Fin 9) (Fin 1000) (Fin 500) (Fin 0.5) "V" = Returned rs
    /\ lookup "number_of_belts_required" rs = Some (VInt 2).
Proof.
  destruct belt_design_example as (rs & E & _). exists rs.
  split; [exact E |].
  apply (belt_design_two_belts 9 (Fin 1000) (Fin 500) (Fin 0.5) "V" rs);
    [rewrite Rabs_right; lra | exact E].
Defined.

(** X28: whenever [belt_design] returns, on any inputs, both pulley
    diameters are sizes of its table of standard sizes (63 mm to 315 mm),
    divided by 1000: the estimates
    [sqrt (power * 1000 / speed_driver) * 0.03] and that times the speed
    ratio are never returned as they are.  On the 9 kW drive from 1000 rpm
    to 500 rpm the estimates are 90 mm and 180 mm, and so are the
    pulleys. *)
Theorem belt_design_standard_pulleys :
  (forall power speed_driver speed_driven center_distance belt_type rs,
      belt_design power speed_driver speed_driven center_distance belt_type
      = Returned rs ->
      exists z1 z2,
        In z1 std_sizes /\ In z2 std_sizes
        /\ lookup "driver_diameter" rs
           = Some (VFloat (fdiv (Fin (IZR z1)) (Fin 1000)))
        /\ lookup "driven_diameter" rs
           = Some (VFloat (fdiv (Fin (IZR z2)) (Fin 1000))))
  /\ (exists rs,
        belt_design (Fin 9) (Fin 1000) (Fin 500) (Fin 0.5) "V" = Returned rs
        /\ lookup "driver_diameter" rs = Some (VFloat (Fin (90 / 1000)))
        /\ lookup "driven_diameter" rs = Some (VFloat (Fin (180 / 1000)))).
Proof.
  split; [| exact belt_design_example].
  intros P n1 n2 cd belt_type rs H. unfold belt_design in H.
  destruct (lift (py_div n1 n2)) as [ratio | |]; cbn [and_then] in H;
    try discriminate H.
  destruct (lift (py_div _ n1)) as [q | |]; cbn [and_then] in H;
    try discriminate H.
  destruct (lift (math_sqrt q)) as [root | |]; cbn [and_then] in H;
    try discriminate H.
  match type of H with
  | and_then (lift (nearest_size ?t)) _ = _ =>
      destruct (nearest_size t) as [z1 | |] eqn:E1;
      cbn [lift and_then] in H; try discriminate H
  end.
  apply nearest_size_In in E1.
  match type of H with
  | and_then (lift (nearest_size ?t)) _ = _ =>
      destruct (nearest_size t) as [z2 | |] eqn:E2;
      cbn [lift and_then] in H; try discriminate H
  end.
  apply nearest_size_In in E2.
  peel H. injection H as <-. cbn [lookup String.eqb Ascii.eqb Bool.eqb].
  exists z1, z2. repeat split; assumption || reflexivity.
Qed.

(** A run of X28, on the drive above. *)
Lemma belt_design_standard_pulleys_witness :
  exists rs z1 z2,
    belt_design (Fin 9) (Fin 1000) (Fin 500) (Fin 0.5) "V" = Returned rs
    /\ In z1 std_sizes /\ In z2 std_sizes
    /\ lookup "driver_diameter" rs
       = Some (VFloat (fdiv (Fin (IZR z1)) (Fin 1000)))
    /\ lookup "driven_diameter" rs
       = Some (VFloat (fdiv (Fin (IZR z2)) (Fin 1000))).
Proof.
  destruct belt_design_example as (rs & E & _). exists rs.
  destruct belt_design_standard_pulleys as [H _].
  destruct (H (Fin 9) (Fin 1000) (Fin 500) (Fin 0.5) "V" rs E)
    as (z1 & z2 & Hz).
  exists z1, z2. split; [exact E | exact Hz].
Defined.

(* ================================================================== *)
(** ** Mobile edition: listed materials, [steam_properties] *)
(* ================================================================== *)




